(** * CDISC Library MCP server: response shaping, validation and truncation

    A shallow embedding of [main.py].  Every tool of the server is an
    [async def] that reads the credential from the process environment,
    validates its arguments, issues at most one HTTPS GET through [httpx],
    shapes the decoded JSON and returns a string.

    - Python [str] is [string]; one [ascii] stands for one code point, so
      the model covers the code points up to U+00FF.
    - A decoded JSON value is the inductive [json]; a Python [dict] is an
      association list in insertion order (what [json.dumps] writes and what
      [dict.items()] walks); a decoded dict has unique keys, which the
      lemmas that need it assume as [NoDup (keys d)].
    - The in-place tree walks return the tree they leave behind.
    - The network is an oracle ([World]); each tool returns its string
      together with the log of the requests handed to [client.get].  The
      model starts from a constructed client: [httpx.AsyncClient()] raising
      is not modelled. *)

From Stdlib Require Import String Ascii List ZArith Bool Lia DecimalString.
Import ListNotations.
Local Open Scope list_scope.
Local Open Scope string_scope.

(** ** Python strings *)

Module Py.

Definition dquote : ascii := "034"%char.
Definition backslash : ascii := "092"%char.
Definition newline : ascii := "010"%char.

Definition chr (c : ascii) : string := String c EmptyString.

(** [len(s)] *)
Definition len (s : string) : nat := String.length s.

(** [s[:n]] for [n >= 0] *)
Fixpoint take (n : nat) (s : string) : string :=
  match n, s with
  | O, _ => EmptyString
  | S _, EmptyString => EmptyString
  | S n', String c s' => String c (take n' s')
  end.

(** [if s:] on a [str] *)
Definition truthy (s : string) : bool :=
  match s with EmptyString => false | String _ _ => true end.

(** [if v:] on an optional [str] argument ([None] or a [str]) *)
Definition truthy_opt (o : option string) : bool :=
  match o with None => false | Some s => truthy s end.

(** [x in xs] for a list of [str] *)
Definition str_in (x : string) (xs : list string) : bool :=
  existsb (String.eqb x) xs.

(** [sep.join(xs)] *)
Fixpoint join (sep : string) (xs : list string) : string :=
  match xs with
  | [] => EmptyString
  | [x] => x
  | x :: rest => x ++ sep ++ join sep rest
  end.

(** [str(n)] for an [int] *)
Definition str_of_int (n : Z) : string := NilZero.string_of_int (Z.to_int n).

(** [s.startswith(p)] *)
Definition startswith (p s : string) : bool := String.prefix p s.

(** [p in s] for two [str] *)
Definition contains (p s : string) : Prop :=
  exists pre post, s = pre ++ p ++ post.

End Py.

(** ** Decoded JSON values *)

#[local] Set Warnings "-register-all".

Inductive json : Type :=
| JNull
| JBool (b : bool)
| JInt (n : Z)
| JFloat (repr : string)   (* a Python float, carried by the text [json.dumps]
                              writes for it: its [repr], or [NaN], [Infinity],
                              [-Infinity] for a float that is not finite *)
| JStr (s : string)
| JList (items : list json)
| JObject (fields : list (string * json)).

Definition dict := list (string * json).

Section JsonInduction.
Variable P : json -> Prop.
Hypothesis Hnull : P JNull.
Hypothesis Hbool : forall b, P (JBool b).
Hypothesis Hint : forall n, P (JInt n).
Hypothesis Hfloat : forall r, P (JFloat r).
Hypothesis Hstr : forall s, P (JStr s).
Hypothesis Hlist : forall l, Forall P l -> P (JList l).
Hypothesis Hobj : forall kvs, Forall (fun kv => P (snd kv)) kvs -> P (JObject kvs).

Fixpoint json_nested_ind (v : json) : P v :=
  match v with
  | JNull => Hnull
  | JBool b => Hbool b
  | JInt n => Hint n
  | JFloat r => Hfloat r
  | JStr s => Hstr s
  | JList l =>
      Hlist l ((fix all (l : list json) : Forall P l :=
                  match l with
                  | [] => Forall_nil _
                  | x :: t => Forall_cons x (json_nested_ind x) (all t)
                  end) l)
  | JObject kvs =>
      Hobj kvs ((fix all (l : dict) : Forall (fun kv => P (snd kv)) l :=
                   match l with
                   | [] => Forall_nil _
                   | kv :: t => Forall_cons kv (json_nested_ind (snd kv)) (all t)
                   end) kvs)
  end.
End JsonInduction.

(** Dictionary primitives on the insertion-ordered association list. *)

Definition keys (d : dict) : list string := map fst d.

(** [k in d] *)
Definition dict_mem (k : string) (d : dict) : bool :=
  existsb (fun kv => String.eqb k (fst kv)) d.

(** [d[k]] / [d.get(k)] *)
Fixpoint dict_get (k : string) (d : dict) : option json :=
  match d with
  | [] => None
  | (k', v) :: t => if String.eqb k k' then Some v else dict_get k t
  end.

(** [d[k] = v]: an existing key keeps its place, a new key goes last. *)
Fixpoint dict_set (k : string) (v : json) (d : dict) : dict :=
  match d with
  | [] => [(k, v)]
  | (k', v') :: t =>
      if String.eqb k k' then (k', v) :: t else (k', v') :: dict_set k v t
  end.

(** ** [json.dumps] *)

Module Dumps.

Record options := {
  item_separator : string;
  key_separator : string;
  ensure_ascii : bool
}.

(** [json.dumps(data)] *)
Definition default : options :=
  {| item_separator := ", "; key_separator := ": "; ensure_ascii := true |}.

(** [json.dumps(data, ensure_ascii=False)] *)
Definition unicode : options :=
  {| item_separator := ", "; key_separator := ": "; ensure_ascii := false |}.

(** [json.dumps(data, separators=(',', ':'))] *)
Definition compact : options :=
  {| item_separator := ","; key_separator := ":"; ensure_ascii := true |}.

Definition hex_digit (n : N) : ascii :=
  ascii_of_N (if (n <? 10)%N then 48 + n else 87 + n)%N.

(** ['\\u{0:04x}'.format(n)] for a code point below 256 *)
Definition u_escape (c : ascii) : string :=
  let n := N_of_ascii c in
  String Py.backslash
    ("u00" ++ String (hex_digit (n / 16)) (Py.chr (hex_digit (n mod 16)))).

Definition short_escape (c : ascii) : option string :=
  let n := N_of_ascii c in
  let esc (x : string) := Some (String Py.backslash x) in
  if (n =? 34)%N then esc (Py.chr Py.dquote)
  else if (n =? 92)%N then esc (Py.chr Py.backslash)
  else if (n =? 8)%N then esc "b"
  else if (n =? 12)%N then esc "f"
  else if (n =? 10)%N then esc "n"
  else if (n =? 13)%N then esc "r"
  else if (n =? 9)%N then esc "t"
  else None.

(** One character of [py_encode_basestring_ascii] / [py_encode_basestring]. *)
Definition encode_char (ascii_only : bool) (c : ascii) : string :=
  match short_escape c with
  | Some e => e
  | None =>
      let n := N_of_ascii c in
      if (n <? 32)%N then u_escape c
      else if ascii_only && (126 <? n)%N then u_escape c
      else Py.chr c
  end.

Fixpoint encode_body (ascii_only : bool) (s : string) : string :=
  match s with
  | EmptyString => EmptyString
  | String c s' => encode_char ascii_only c ++ encode_body ascii_only s'
  end.

Definition encode_str (ascii_only : bool) (s : string) : string :=
  String Py.dquote (encode_body ascii_only s ++ Py.chr Py.dquote).

Fixpoint dumps (o : options) (v : json) : string :=
  match v with
  | JNull => "null"
  | JBool true => "true"
  | JBool false => "false"
  | JInt n => Py.str_of_int n
  | JFloat r => r
  | JStr s => encode_str (ensure_ascii o) s
  | JList l =>
      "[" ++ Py.join (item_separator o) (map (dumps o) l) ++ "]"
  | JObject kvs =>
      "{" ++ Py.join (item_separator o)
               (map (fun kv => encode_str (ensure_ascii o) (fst kv)
                               ++ key_separator o ++ dumps o (snd kv)) kvs)
          ++ "}"
  end.

End Dumps.

Definition json_dumps (v : json) : string := Dumps.dumps Dumps.default v.

(** ** Exceptions

    [httpx] is a library the server imports; from it the tools use the
    classes [TimeoutException], [HTTPStatusError] and [RequestError], where
    [TimeoutException] derives from [TransportError], itself a
    [RequestError], and [HTTPStatusError] is no [RequestError].  Anything
    else raised inside a [try] (a [TypeError], an [AttributeError], a JSON
    decoding error) is a [PyException] carrying its [str(e)]. *)

Inductive exn : Type :=
| TimeoutException (msg : string)
| HTTPStatusError (msg : string) (status_code : Z) (text : string)
| RequestError (msg : string)
| PyException (msg : string).

Definition is_TimeoutException (e : exn) : bool :=
  match e with TimeoutException _ => true | _ => false end.

Definition is_HTTPStatusError (e : exn) : bool :=
  match e with HTTPStatusError _ _ _ => true | _ => false end.

Definition is_RequestError (e : exn) : bool :=
  match e with TimeoutException _ | RequestError _ => true | _ => false end.

Definition is_Exception (e : exn) : bool := true.

(** [str(e)] *)
Definition exn_str (e : exn) : string :=
  match e with
  | TimeoutException m | RequestError m | PyException m => m
  | HTTPStatusError m _ _ => m
  end.

Definition result (A : Type) : Type := (exn + A)%type.

Definition ok {A} (a : A) : result A := inr a.
Definition raise {A} (e : exn) : result A := inl e.

Definition rbind {A B} (r : result A) (k : A -> result B) : result B :=
  match r with inl e => inl e | inr a => k a end.

Notation "x <-? r ;; k" := (rbind r (fun x => k))
  (at level 61, r at next level, right associativity).

(** ** Dynamic operations on decoded values *)

Definition type_name (v : json) : string :=
  match v with
  | JNull => "NoneType"
  | JBool _ => "bool"
  | JInt _ => "int"
  | JFloat _ => "float"
  | JStr _ => "str"
  | JList _ => "list"
  | JObject _ => "dict"
  end.

Definition none_or (o : option json) : json :=
  match o with Some v => v | None => JNull end.

(** [v.get(key)]: only a [dict] has the method. *)
Definition py_get (v : json) (key : string) : result json :=
  match v with
  | JObject d => ok (none_or (dict_get key d))
  | _ => raise (PyException ("'" ++ type_name v ++ "' object has no attribute 'get'"))
  end.

Fixpoint chars (s : string) : list json :=
  match s with
  | EmptyString => []
  | String c s' => JStr (Py.chr c) :: chars s'
  end.

(** [for x in v]: a list yields its items, a dict its keys, a str its
    characters; nothing else is iterable. *)
Definition py_iter (v : json) : result (list json) :=
  match v with
  | JList l => ok l
  | JObject d => ok (map JStr (keys d))
  | JStr s => ok (chars s)
  | _ => raise (PyException ("'" ++ type_name v ++ "' object is not iterable"))
  end.

(** [v[:n]] on a decoded value.  A list and a str are sliced; a dict is
    indexed with the slice object as key, which fails ([TypeError]
    "unhashable type: 'slice'" up to CPython 3.11, a [KeyError] on the slice
    from 3.12 on); the other types are not subscriptable. *)
Definition py_slice (v : json) (n : nat) : result json :=
  match v with
  | JList l => ok (JList (firstn n l))
  | JStr s => ok (JStr (Py.take n s))
  | JObject _ => raise (PyException "unhashable type: 'slice'")
  | _ => raise (PyException ("'" ++ type_name v ++ "' object is not subscriptable"))
  end.

(** ** Response shapers *)

(** [remove_all_analysis_variables(obj)], as the tree it leaves in [obj].
    The source first stores [[]] under the key and then walks
    [obj.items()]; the walk finds the fresh empty list there and leaves it
    as it is (see [remove_all_analysis_variables_two_phase]). *)
Fixpoint remove_all_analysis_variables (obj : json) : json :=
  match obj with
  | JObject d =>
      JObject (map (fun kv =>
                      (fst kv,
                       if String.eqb (fst kv) "analysisVariables"
                       then JList []
                       else remove_all_analysis_variables (snd kv))) d)
  | JList l => JList (map remove_all_analysis_variables l)
  | _ => obj
  end.

(** [{'self': links['self']}] if ['self' in links], else [{}]; [walk] is
    what the traversal that follows does to the kept entry. *)
Definition keep_self (walk : json -> json) : dict -> dict :=
  fix keep (links : dict) : dict :=
    match links with
    | [] => []
    | (k, a) :: t => if String.eqb "self" k then [("self", walk a)] else keep t
    end.

(** [remove_links_parent_refs(obj, parent_key)], as the tree it leaves in
    [obj].  Under the parent key ['analysisVariables'] a dict-valued
    ['_links'] is replaced by [{'self': links['self']}] or [{}]; the walk of
    [obj.items()] that follows enters the replacement with parent key
    ['_links'] and the kept entry with parent key ['self']. *)
Fixpoint remove_links_parent_refs (obj : json) (parent_key : option string) : json :=
  match obj with
  | JObject d =>
      let under_av :=
        match parent_key with
        | Some p => String.eqb p "analysisVariables"
        | None => false
        end in
      JObject (map (fun kv =>
        (fst kv,
         match snd kv with
         | JObject links =>
             if under_av && String.eqb (fst kv) "_links" then
               JObject (keep_self (fun a => remove_links_parent_refs a (Some "self")) links)
             else remove_links_parent_refs (snd kv) (Some (fst kv))
         | _ => remove_links_parent_refs (snd kv) (Some (fst kv))
         end)) d)
  | JList l => JList (map (fun item => remove_links_parent_refs item parent_key) l)
  | _ => obj
  end.

(** The minimisation written inline in [get_package_ct_info]: every
    codelist and every term is rebuilt from [.get] of two fields. *)

Fixpoint for_each {A B} (f : A -> result B) (l : list A) : result (list B) :=
  match l with
  | [] => ok []
  | x :: t => y <-? f x ;; ys <-? for_each f t ;; ok (y :: ys)
  end.

Definition clean_term (term : json) : result json :=
  conceptId <-? py_get term "conceptId" ;;
  submissionValue <-? py_get term "submissionValue" ;;
  ok (JObject [("conceptId", conceptId); ("submissionValue", submissionValue)]).

Definition clean_cl (cl : json) : result json :=
  conceptId <-? py_get cl "conceptId" ;;
  submissionValue <-? py_get cl "submissionValue" ;;
  terms <-? match cl with
            | JObject d =>
                if dict_mem "terms" d
                then ts <-? py_iter (none_or (dict_get "terms" d)) ;;
                     for_each clean_term ts
                else ok []
            | _ => ok []   (* not reached: [cl.get] has raised *)
            end ;;
  ok (JObject [("conceptId", conceptId);
               ("submissionValue", submissionValue);
               ("terms", JList terms)]).

(** [raw_data.get("codelists", [])] *)
Definition get_codelists (raw_data : json) : result json :=
  match raw_data with
  | JObject d => ok (match dict_get "codelists" d with Some v => v | None => JList [] end)
  | _ => raise (PyException ("'" ++ type_name raw_data ++ "' object has no attribute 'get'"))
  end.

Definition minimized_codelists (raw_data : json) : result (list json) :=
  codelists <-? get_codelists raw_data ;;
  cls <-? py_iter codelists ;;
  for_each clean_cl cls.

Definition final_data (raw_data : json) : result json :=
  minimized <-? minimized_codelists raw_data ;;
  ok (JObject [("codelists", JList minimized)]).

(** ** The environment and the HTTP client *)

Record Request := {
  url : string;
  headers : list (string * option string);
  timeout : Z                               (* seconds *)
}.

Record Response := {
  status_code : Z;
  text : string;
  status_message : string;                  (* the message [raise_for_status] raises with *)
  json_body : result json                   (* what [response.json()] does *)
}.

(** What the process finds outside itself: the environment variables and,
    for every request, what [client.get] answers.  The client is taken as
    constructed: a world says nothing about [httpx.AsyncClient()] raising
    or about the closing of the client at the end of the [async with]. *)
Record World := {
  getenv : string -> option string;
  client_get : Request -> result Response
}.

(** A tool runs in a world, may raise, and leaves the log of the requests
    it handed to [client.get]. *)
Definition IO (A : Type) : Type := World -> list Request -> result A * list Request.

Definition ret {A} (a : A) : IO A := fun _ log => (ok a, log).

Definition bind {A B} (m : IO A) (k : A -> IO B) : IO B :=
  fun w log =>
    match m w log with
    | (inl e, log') => (inl e, log')
    | (inr a, log') => k a w log'
    end.

Notation "x <- m ;; k" := (bind m (fun x => k))
  (at level 61, m at next level, right associativity).

Definition lift {A} (r : result A) : IO A := fun _ log => (r, log).

(** [os.getenv(name)] *)
Definition os_getenv (name : string) : IO (option string) :=
  fun w log => (ok (getenv w name), log).

(** [await client.get(url, headers=hdr, timeout=t)] *)
Definition get (u : string) (hdr : list (string * option string)) (t : Z) : IO Response :=
  fun w log =>
    let r := {| url := u; headers := hdr; timeout := t |} in
    (client_get w r, (log ++ [r])%list).

(** [response.raise_for_status()]: anything but a 2xx status raises. *)
Definition raise_for_status (response : Response) : IO unit :=
  if ((200 <=? status_code response) && (status_code response <=? 299))%Z
  then ret tt
  else lift (raise (HTTPStatusError (status_message response)
                                     (status_code response) (text response))).

(** [response.json()] *)
Definition response_json (response : Response) : IO json := lift (json_body response).

(** [try: body except C1 as e: h1 ... except Cn as e: hn]: the first clause
    whose class the exception belongs to handles it. *)
Fixpoint handle {A} (clauses : list ((exn -> bool) * (exn -> A))) (e : exn) : result A :=
  match clauses with
  | [] => raise e
  | (cls, h) :: rest => if cls e then ok (h e) else handle rest e
  end.

Definition try_except {A} (body : IO A) (clauses : list ((exn -> bool) * (exn -> A))) : IO A :=
  fun w log =>
    match body w log with
    | (inl e, log') => (handle clauses e, log')
    | (inr a, log') => (inr a, log')
    end.

(** Running a tool from an empty log. *)
Definition run {A} (tool : IO A) (w : World) : result A * list Request := tool w [].

(** ** Blocks the tools repeat *)

Definition hdr (api_key : option string) : list (string * option string) :=
  [("Cache-Control", Some "no-cache"); ("api-key", api_key); ("Accept", Some "application/json")].

Definition no_api_key : string := "Error: CDISC_API_KEY environment variable not found.".

(** The literal [130000] of every length test and slice. *)
Definition limit : nat := N.to_nat 130000.

Definition too_long : string := "The data is too long, please shorten the request.".

Definition truncated : string := String Py.newline "... [Truncated]".

(** The three [except] clauses of every tool but the product list. *)
Definition except_clauses : list ((exn -> bool) * (exn -> string)) :=
  [ (is_HTTPStatusError,
     fun e => match e with
              | HTTPStatusError _ code body =>
                  "API Error: HTTP " ++ Py.str_of_int code ++ " - " ++ body
              | _ => EmptyString
              end);
    (is_RequestError, fun e => "Network Error: " ++ exn_str e);
    (is_Exception, fun e => "Execution Error: " ++ exn_str e) ].

(** [if len(json.dumps(data)) > 130000:
       return json.dumps(data[:130000]) + "..." + "The data is too long, ..."
     else: return json.dumps(data)] *)
Definition return_data (data : json) : result string :=
  if (limit <? Py.len (json_dumps data))%nat
  then sliced <-? py_slice data limit ;;
       ok (json_dumps sliced ++ "..." ++ too_long)
  else ok (json_dumps data).

(** [if len(result) > 130000:
       return result[:130000] + "..." + "The data is too long, ..."
     else: return result] *)
Definition return_result (result : string) : string :=
  if (limit <? Py.len result)%nat
  then Py.take limit result ++ "..." ++ too_long
  else result.

(** [if len(json_str) > 130000: return json_str[:130000] + "\n... [Truncated]"
     else: return json_str] *)
Definition return_json_str (json_str : string) : string :=
  if (limit <? Py.len json_str)%nat
  then Py.take limit json_str ++ truncated
  else json_str.

(** [response = await client.get(...); response.raise_for_status();
     data = response.json()] *)
Definition fetch (u : string) (api_key : option string) (t : Z) : IO json :=
  response <- get u (hdr api_key) t ;;
  _ <- raise_for_status response ;;
  response_json response.

(** The [try] block every tool but the product list ends with:
    [try: <fetch>; <returns> except httpx.HTTPStatusError ...
     except httpx.RequestError ... except Exception ...], where [returns]
    is what the tool does with the decoded data.  In these tools the line
    [async with httpx.AsyncClient() as client:] stands before the [try]
    (in the product list it stands inside it); it is not part of this
    block, and an exception of the constructor, which no [except] clause
    of these tools would catch, is outside the model. *)
Definition guarded (u : string) (api_key : option string) (t : Z)
    (returns : json -> result string) : IO string :=
  try_except (data <- fetch u api_key t ;; lift (returns data)) except_clauses.

(** The tools that return the decoded data as it is. *)
Definition request_data (u : string) (api_key : option string) : IO string :=
  guarded u api_key 15 return_data.

(** [api_key = os.getenv("CDISC_API_KEY"); if not api_key: return "Error: ..."] *)
Definition with_api_key (k : option string -> IO string) : IO string :=
  api_key <- os_getenv "CDISC_API_KEY" ;;
  if negb (Py.truthy_opt api_key) then ret no_api_key else k api_key.

(** [if x: (if x in allowed: url = detail else: return error) else: url = base_url] *)
Definition choose_url (name : string) (x : option string) (allowed : list string)
    (detail : string -> string) (base_url : string) : string + string :=
  match x with
  | Some v =>
      if Py.truthy v then
        if Py.str_in v allowed then inr (detail v)
        else inl ("Error: " ++ name ++ " is invalid, got '" ++ v ++ "'")
      else inr base_url
  | None => inr base_url
  end.

Definition mdr : string := "https://api.library.cdisc.org/api/mdr/".

(** ** The tools *)

Definition get_CDISC_Library_api_product_list : IO string :=
  api_key <- os_getenv "CDISC_API_KEY" ;;
  let url := "https://api.library.cdisc.org/api/mdr/products?expand=false" in
  try_except
    (response <- get url (hdr api_key) 15 ;;
     _ <- raise_for_status response ;;
     data <- response_json response ;;
     ret (Dumps.dumps Dumps.unicode data))
    [ (is_TimeoutException,
       fun _ => "Error: The request to CDISC Library timed out. Please try again later.");
      (is_HTTPStatusError,
       fun e => match e with
                | HTTPStatusError _ code _ =>
                    "API Error: CDISC Library returned status " ++ Py.str_of_int code ++ "."
                | _ => EmptyString
                end);
      (is_RequestError,
       fun e => "Network Error: Unable to connect to CDISC Library. Details: " ++ exn_str e);
      (is_Exception, fun e => "Unexpected Error: " ++ exn_str e) ].

Definition sdtmig_classes : list string :=
  ["GeneralObservations"; "Interventions"; "Events"; "Findings"; "FindingsAbout";
   "SpecialPurpose"; "TrialDesign"; "StudyReference"; "Relationship"].

Definition get_sdtmig_class_info (version : string) (className : option string) : IO string :=
  with_api_key (fun api_key =>
    let base_url := mdr ++ "sdtmig/" ++ version ++ "/classes" in
    match choose_url "className" className sdtmig_classes
            (fun c => base_url ++ "/" ++ c ++ "/datasets?expand=false") base_url with
    | inl error => ret error
    | inr url => request_data url api_key
    end).

Definition sdtmig_datasets : list string :=
  ["AG"; "CM"; "EC"; "EX"; "ML"; "PR"; "SU"; "AE"; "BE"; "CE"; "DS"; "DV"; "HO"; "MH";
   "BS"; "CP"; "DA"; "DD"; "EG"; "FT"; "GF"; "IE"; "IS"; "LB"; "MB"; "MI"; "MK"; "MS";
   "NV"; "OE"; "PC"; "PE"; "PP"; "QS"; "RE"; "RP"; "RS"; "SC"; "SS"; "TR"; "TU"; "UR";
   "VS"; "FA"; "SR"; "CO"; "DM"; "SE"; "SM"; "SV"; "TA"; "TD"; "TE"; "TI"].

Definition get_sdtmig_dataset_info (version : string) (dataset : string) : IO string :=
  with_api_key (fun api_key =>
    let base_url := mdr ++ "sdtmig/" ++ version ++ "/datasets" in
    match choose_url "dataset" (Some dataset) sdtmig_datasets
            (fun d => base_url ++ "/" ++ d) base_url with
    | inl error => ret error
    | inr url => request_data url api_key
    end).

Definition sdtm_classes : list string :=
  ["GeneralObservations"; "Interventions"; "Events"; "Findings"; "FindingsAbout";
   "SpecialPurpose"; "AssociatedPersons"; "TrialDesign"; "StudyReference"; "Relationship"].

Definition get_sdtm_model_class_info (version : string) (className : option string) : IO string :=
  with_api_key (fun api_key =>
    let base_url := mdr ++ "sdtm/" ++ version ++ "/classes" in
    match choose_url "className" className sdtm_classes
            (fun c => base_url ++ "/" ++ c) base_url with
    | inl error => ret error
    | inr url => request_data url api_key
    end).

Definition sdtm_datasets : list string :=
  ["DM"; "CO"; "SE"; "SJ"; "SV"; "SM"; "TE"; "TA"; "TX"; "TT"; "TP"; "TV"; "TD"; "TM";
   "TI"; "TS"; "AC"; "DI"; "OI"; "RELREC"; "SUPPQUAL"; "POOLDEF"; "RELSUB"; "RELREF";
   "DR"; "APRELSUB"; "RELSPEC"].

Definition get_sdtm_model_dataset_info (version : string) (dataset : option string) : IO string :=
  with_api_key (fun api_key =>
    let base_url := mdr ++ "sdtm/" ++ version ++ "/datasets" in
    match choose_url "dataset" dataset sdtm_datasets
            (fun d => base_url ++ "/" ++ d) base_url with
    | inl error => ret error
    | inr url => request_data url api_key
    end).

Definition sendig_classes : list string :=
  ["GeneralObservations"; "SpecialPurpose"; "Interventions"; "Events"; "Findings";
   "TrialDesign"; "Relationship"].

Definition get_sendig_class_info (version : string) (className : option string) : IO string :=
  with_api_key (fun api_key =>
    let base_url := mdr ++ "sendig/" ++ version ++ "/classes" in
    match choose_url "className" className sendig_classes
            (fun c => base_url ++ "/" ++ c) base_url with
    | inl error => ret error
    | inr url => request_data url api_key
    end).

Definition sendig_datasets : list string :=
  ["DM"; "CO"; "SE"; "EX"; "DS"; "BW"; "BG"; "CL"; "DD"; "FW"; "LB"; "MA"; "MI"; "OM";
   "PM"; "PC"; "PP"; "SC"; "TF"; "VS"; "EG"; "CV"; "RE"; "TE"; "TA"; "TX"; "TS";
   "RELREC"; "SUPPQUAL"; "POOLDEF"].

Definition get_sendig_dataset_info (version : string) (dataset : option string) : IO string :=
  with_api_key (fun api_key =>
    let base_url := mdr ++ "sendig/" ++ version ++ "/datasets" in
    match choose_url "dataset" dataset sendig_datasets
            (fun d => base_url ++ "/" ++ d) base_url with
    | inl error => ret error
    | inr url => request_data url api_key
    end).

Definition cdashig_classes : list string :=
  ["Interventions"; "Events"; "Findings"; "FindingsAbout"; "SpecialPurpose"].

Definition get_cdashig_class_info (version : string) (className : option string) : IO string :=
  with_api_key (fun api_key =>
    let base_url := mdr ++ "cdashig/" ++ version ++ "/classes" in
    match choose_url "className" className cdashig_classes
            (fun c => base_url ++ "/" ++ c ++ "/domains") base_url with
    | inl error => ret error
    | inr url => request_data url api_key
    end).

Definition cdashig_domains : list string :=
  ["AG"; "CM"; "EC"; "EX"; "ML"; "PR"; "SU"; "AE"; "CE"; "DS"; "DV"; "HO"; "MH"; "SA";
   "CP"; "CV"; "DA"; "DD"; "EG"; "GF"; "IE"; "LB"; "MB"; "MI"; "MK"; "MS"; "NV"; "OE";
   "PC"; "PE"; "RE"; "RP"; "RS"; "SC"; "TR"; "TU"; "UR"; "VS"; "FA"; "SR"; "CO"; "DM"].

Definition get_cdashig_domain_info (version : string) (domains : option string) : IO string :=
  with_api_key (fun api_key =>
    let base_url := mdr ++ "cdashig/" ++ version ++ "/domains" in
    match choose_url "domains" domains cdashig_domains
            (fun d => base_url ++ "/" ++ d) base_url with
    | inl error => ret error
    | inr url => request_data url api_key
    end).

(** No list is consulted here: any non-empty scenario goes into the path. *)
Definition get_cdashig_scenarios_info (version : string) (scenario : option string) : IO string :=
  with_api_key (fun api_key =>
    let base_url := mdr ++ "cdashig/" ++ version ++ "/scenarios" in
    let url := match scenario with
               | Some s => if Py.truthy s then base_url ++ "/" ++ s else base_url
               | None => base_url
               end in
    request_data url api_key).

Definition cdash_classes : list string :=
  ["Interventions"; "Events"; "Findings"; "FindingsAbout"; "SpecialPurpose";
   "Identifiers"; "AssociatedPersonsIdentifiers"; "Timing"].

Definition get_cdash_model_class_info (version : string) (className : option string) : IO string :=
  with_api_key (fun api_key =>
    let base_url := mdr ++ "cdash/" ++ version ++ "/classes" in
    match choose_url "className" className cdash_classes
            (fun c => base_url ++ "/" ++ c) base_url with
    | inl error => ret error
    | inr url => request_data url api_key
    end).

Definition cdash_domains : list string := ["AE"; "CO"; "DM"; "DS"; "MH"; "MS"].

Definition get_cdash_model_domain_info (version : string) (domain : option string) : IO string :=
  with_api_key (fun api_key =>
    let base_url := mdr ++ "cdash/" ++ version ++ "/domains" in
    match choose_url "domain" domain cdash_domains
            (fun d => base_url ++ "/" ++ d) base_url with
    | inl error => ret error
    | inr url => request_data url api_key
    end).

Definition get_adam_product_info (product : string) : IO string :=
  with_api_key (fun api_key =>
    let url := mdr ++ "adam/" ++ product in
    guarded url api_key 15 (fun json_data =>
      let json_data := remove_all_analysis_variables json_data in
      let result := json_dumps json_data in
      ok (return_result result))).

Definition ALLOWED_adam_datastructure_combinations : list (string * list string) :=
  [ ("adam-nca-1-0", ["ADNCA"]);
    ("adamig-1-0", ["ADSL"; "BDS"]);
    ("adamig-1-1", ["ADSL"; "BDS"]);
    ("adam-occds-1-0", ["OCCDS"]);
    ("adam-occds-1-1", ["OCCDS"; "AE"]);
    ("adam-adae-1-0", ["ADAE"]);
    ("adam-poppk-1-0", ["ADPPK"]);
    ("adam-tte-1-0", ["ADTTE"]);
    ("adamig-1-2", ["ADSL"; "BDS"]);
    ("adam-md-1-0", ["ADDL"; "MDOCCDS"; "MDBDS"; "MDTTE"]);
    ("adamig-1-3", ["ADSL"; "BDS"; "TTE"]) ].

(** [table[k]] for a key of the table, [None] for any other string *)
Fixpoint lookup (k : string) (table : list (string * list string)) : option (list string) :=
  match table with
  | [] => None
  | (k', vs) :: t => if String.eqb k k' then Some vs else lookup k t
  end.

Definition get_adam_datastructure_info (product datastructure : string) : IO string :=
  with_api_key (fun api_key =>
    match lookup product ALLOWED_adam_datastructure_combinations with
    | None =>
        let valid_products := Py.join ", " (map fst ALLOWED_adam_datastructure_combinations) in
        ret ("Error: Invalid product '" ++ product ++ "'. Valid products are: " ++ valid_products)
    | Some allowed =>
        if negb (Py.str_in datastructure allowed) then
          let valid_datastructures := Py.join ", " allowed in
          ret ("Error: Invalid datastructure '" ++ datastructure ++ "' for product '"
               ++ product ++ "'. Valid datastructures are: " ++ valid_datastructures)
        else
          let url := mdr ++ "adam/" ++ product ++ "/datastructures/" ++ datastructure in
          guarded url api_key 15 (fun json_data =>
            let json_data := remove_links_parent_refs json_data None in
            let result := json_dumps json_data in
            ok (return_result result))
    end).

Definition ALLOWED_qrs_combinations : list (string * list string) :=
  [ ("AIMS01", ["2-0"]);
    ("APCH1", ["1-0"]);
    ("ATLAS1", ["1-0"]);
    ("CGI02", ["2-1"]);
    ("HAMA1", ["2-1"]);
    ("KFSS1", ["2-0"]);
    ("KPSS1", ["2-0"]);
    ("PGI01", ["1-1"]);
    ("SIXMW1", ["1-0"]) ].

Definition get_qrs_info (instrument version : string) : IO string :=
  with_api_key (fun api_key =>
    match lookup instrument ALLOWED_qrs_combinations with
    | None =>
        let valid_instruments := Py.join ", " (map fst ALLOWED_qrs_combinations) in
        ret ("Error: Invalid instrument '" ++ instrument ++ "'. Valid instruments are: "
             ++ valid_instruments)
    | Some allowed =>
        if negb (Py.str_in version allowed) then
          let valid_versions := Py.join ", " allowed in
          ret ("Error: Invalid version '" ++ version ++ "' for instrument '"
               ++ instrument ++ "'. Valid versions are: " ++ valid_versions)
        else
          let url := mdr ++ "qrs/instruments/" ++ instrument ++ "/versions/" ++ version in
          guarded url api_key 15 (fun json_data =>
            let result := json_dumps json_data in
            ok (return_result result))
    end).

Definition ct_package : list string :=
  ["adamct-2014-09-26"; "adamct-2015-12-18"; "adamct-2016-03-25"; "adamct-2016-09-30";
   "adamct-2016-12-16"; "adamct-2017-03-31"; "adamct-2017-09-29"; "adamct-2018-12-21";
   "adamct-2019-03-29"; "adamct-2019-12-20"; "adamct-2020-03-27"; "adamct-2020-06-26";
   "adamct-2020-11-06"; "adamct-2021-12-17"; "adamct-2022-06-24"; "adamct-2023-03-31";
   "adamct-2023-06-30"; "adamct-2024-03-29"; "adamct-2024-09-27"; "adamct-2025-03-28";
   "adamct-2025-09-26"; "cdashct-2014-09-26"; "cdashct-2015-03-27";
   "cdashct-2016-03-25"; "cdashct-2016-09-30"; "cdashct-2016-12-16";
   "cdashct-2017-09-29"; "cdashct-2018-03-30"; "cdashct-2018-06-29";
   "cdashct-2018-09-28"; "cdashct-2018-12-21"; "cdashct-2019-03-29";
   "cdashct-2019-06-28"; "cdashct-2019-12-20"; "cdashct-2020-11-06";
   "cdashct-2020-12-18"; "cdashct-2021-03-26"; "cdashct-2021-06-25";
   "cdashct-2021-09-24"; "cdashct-2021-12-17"; "cdashct-2022-06-24";
   "cdashct-2022-09-30"; "cdashct-2022-12-16"; "cdashct-2024-09-27";
   "cdashct-2025-03-28"; "coact-2014-12-19"; "coact-2015-03-27"; "ddfct-2022-09-30";
   "ddfct-2022-12-16"; "ddfct-2023-03-31"; "ddfct-2023-06-30"; "ddfct-2023-09-29";
   "ddfct-2023-12-15"; "ddfct-2024-03-29"; "ddfct-2024-09-27"; "ddfct-2025-09-26";
   "define-xmlct-2019-12-20"; "define-xmlct-2020-03-27"; "define-xmlct-2020-06-26";
   "define-xmlct-2020-11-06"; "define-xmlct-2020-12-18"; "define-xmlct-2021-03-26";
   "define-xmlct-2021-06-25"; "define-xmlct-2021-09-24"; "define-xmlct-2021-12-17";
   "define-xmlct-2022-09-30"; "define-xmlct-2022-12-16"; "define-xmlct-2023-06-30";
   "define-xmlct-2023-12-15"; "define-xmlct-2024-03-29"; "define-xmlct-2024-09-27";
   "define-xmlct-2025-03-28"; "define-xmlct-2025-09-26"; "glossaryct-2020-12-18";
   "glossaryct-2021-12-17"; "glossaryct-2022-12-16"; "glossaryct-2023-12-15";
   "glossaryct-2024-09-27"; "glossaryct-2025-09-26"; "mrctct-2024-03-29";
   "mrctct-2024-09-27"; "mrctct-2025-09-26"; "protocolct-2017-03-31";
   "protocolct-2017-06-30"; "protocolct-2017-09-29"; "protocolct-2018-03-30";
   "protocolct-2018-06-29"; "protocolct-2018-09-28"; "protocolct-2019-03-29";
   "protocolct-2019-06-28"; "protocolct-2019-09-27"; "protocolct-2019-12-20";
   "protocolct-2020-03-27"; "protocolct-2020-06-26"; "protocolct-2020-11-06";
   "protocolct-2020-12-18"; "protocolct-2021-03-26"; "protocolct-2021-06-25";
   "protocolct-2021-09-24"; "protocolct-2021-12-17"; "protocolct-2022-03-25";
   "protocolct-2022-06-24"; "protocolct-2022-09-30"; "protocolct-2022-12-16";
   "protocolct-2023-03-31"; "protocolct-2023-06-30"; "protocolct-2023-09-29";
   "protocolct-2023-12-15"; "protocolct-2024-03-29"; "protocolct-2024-09-27";
   "protocolct-2025-03-28"; "protocolct-2025-09-26"; "qrsct-2015-06-26";
   "qrsct-2015-09-25"; "qs-ftct-2014-09-26"; "sdtmct-2014-09-26"; "sdtmct-2014-12-19";
   "sdtmct-2015-03-27"; "sdtmct-2015-06-26"; "sdtmct-2015-09-25"; "sdtmct-2015-12-18";
   "sdtmct-2016-03-25"; "sdtmct-2016-06-24"; "sdtmct-2016-09-30"; "sdtmct-2016-12-16";
   "sdtmct-2017-03-31"; "sdtmct-2017-06-30"; "sdtmct-2017-09-29"; "sdtmct-2017-12-22";
   "sdtmct-2018-03-30"; "sdtmct-2018-06-29"; "sdtmct-2018-09-28"; "sdtmct-2018-12-21";
   "sdtmct-2019-03-29"; "sdtmct-2019-06-28"; "sdtmct-2019-09-27"; "sdtmct-2019-12-20";
   "sdtmct-2020-03-27"; "sdtmct-2020-06-26"; "sdtmct-2020-11-06"; "sdtmct-2020-12-18";
   "sdtmct-2021-03-26"; "sdtmct-2021-06-25"; "sdtmct-2021-09-24"; "sdtmct-2021-12-17";
   "sdtmct-2022-03-25"; "sdtmct-2022-06-24"; "sdtmct-2022-09-30"; "sdtmct-2022-12-16";
   "sdtmct-2023-03-31"; "sdtmct-2023-06-30"; "sdtmct-2023-09-29"; "sdtmct-2023-12-15";
   "sdtmct-2024-03-29"; "sdtmct-2024-09-27"; "sdtmct-2025-03-28"; "sdtmct-2025-09-26";
   "sendct-2014-09-26"; "sendct-2014-12-19"; "sendct-2015-03-27"; "sendct-2015-06-26";
   "sendct-2015-09-25"; "sendct-2015-12-18"; "sendct-2016-03-25"; "sendct-2016-06-24";
   "sendct-2016-09-30"; "sendct-2016-12-16"; "sendct-2017-03-31"; "sendct-2017-06-30";
   "sendct-2017-09-29"; "sendct-2017-12-22"; "sendct-2018-03-30"; "sendct-2018-06-29";
   "sendct-2018-09-28"; "sendct-2018-12-21"; "sendct-2019-03-29"; "sendct-2019-06-28";
   "sendct-2019-09-27"; "sendct-2019-12-20"; "sendct-2020-03-27"; "sendct-2020-06-26";
   "sendct-2020-11-06"; "sendct-2020-12-18"; "sendct-2021-03-26"; "sendct-2021-06-25";
   "sendct-2021-09-24"; "sendct-2021-12-17"; "sendct-2022-03-25"; "sendct-2022-06-24";
   "sendct-2022-09-30"; "sendct-2022-12-16"; "sendct-2023-03-31"; "sendct-2023-06-30";
   "sendct-2023-09-29"; "sendct-2023-12-15"; "sendct-2024-03-29"; "sendct-2024-09-27";
   "sendct-2025-03-28"; "sendct-2025-09-26"; "tmfct-2024-09-27"].

Definition invalid_package (package : string) : string :=
  "Error: Package '" ++ package ++ "' is invalid or not found in known packages.".

Definition get_package_ct_info (package : string) : IO string :=
  with_api_key (fun api_key =>
    if negb (Py.str_in package ct_package) then ret (invalid_package package)
    else
      let base_url := mdr ++ "ct/packages/" ++ package in
      guarded base_url api_key 30 (fun raw_data =>
        final <-? final_data raw_data ;;
        let json_str := Dumps.dumps Dumps.compact final in
        ok (return_json_str json_str))).

Definition get_package_ct_codelist_info (package codelist : string) : IO string :=
  with_api_key (fun api_key =>
    if negb (Py.str_in package ct_package) then ret (invalid_package package)
    else
      let base_url := mdr ++ "ct/packages/" ++ package ++ "/codelists/" ++ codelist in
      guarded base_url api_key 30 (fun data =>
        let json_str := Dumps.dumps Dumps.compact data in
        ok (return_json_str json_str))).

Definition get_package_ct_codelist_term_info (package codelist term : string) : IO string :=
  with_api_key (fun api_key =>
    if negb (Py.str_in package ct_package) then ret (invalid_package package)
    else
      let base_url := mdr ++ "ct/packages/" ++ package ++ "/codelists/" ++ codelist
                      ++ "/terms/" ++ term in
      guarded base_url api_key 30 (fun data =>
        let json_str := Dumps.dumps Dumps.compact data in
        ok (return_json_str json_str))).

(** One constructor per tool, with the arguments of a call. *)
Inductive Call : Type :=
| CDISC_Library_api_product_list
| sdtmig_class_info (version : string) (className : option string)
| sdtmig_dataset_info (version dataset : string)
| sdtm_model_class_info (version : string) (className : option string)
| sdtm_model_dataset_info (version : string) (dataset : option string)
| sendig_class_info (version : string) (className : option string)
| sendig_dataset_info (version : string) (dataset : option string)
| cdashig_class_info (version : string) (className : option string)
| cdashig_domain_info (version : string) (domains : option string)
| cdashig_scenarios_info (version : string) (scenario : option string)
| cdash_model_class_info (version : string) (className : option string)
| cdash_model_domain_info (version : string) (domain : option string)
| adam_product_info (product : string)
| adam_datastructure_info (product datastructure : string)
| qrs_info (instrument version : string)
| package_ct_info (package : string)
| package_ct_codelist_info (package codelist : string)
| package_ct_codelist_term_info (package codelist term : string).

Definition invoke (c : Call) : IO string :=
  match c with
  | CDISC_Library_api_product_list => get_CDISC_Library_api_product_list
  | sdtmig_class_info v c => get_sdtmig_class_info v c
  | sdtmig_dataset_info v d => get_sdtmig_dataset_info v d
  | sdtm_model_class_info v c => get_sdtm_model_class_info v c
  | sdtm_model_dataset_info v d => get_sdtm_model_dataset_info v d
  | sendig_class_info v c => get_sendig_class_info v c
  | sendig_dataset_info v d => get_sendig_dataset_info v d
  | cdashig_class_info v c => get_cdashig_class_info v c
  | cdashig_domain_info v d => get_cdashig_domain_info v d
  | cdashig_scenarios_info v s => get_cdashig_scenarios_info v s
  | cdash_model_class_info v c => get_cdash_model_class_info v c
  | cdash_model_domain_info v d => get_cdash_model_domain_info v d
  | adam_product_info p => get_adam_product_info p
  | adam_datastructure_info p d => get_adam_datastructure_info p d
  | qrs_info i v => get_qrs_info i v
  | package_ct_info p => get_package_ct_info p
  | package_ct_codelist_info p c => get_package_ct_codelist_info p c
  | package_ct_codelist_term_info p c t => get_package_ct_codelist_term_info p c t
  end.

(** ** The resource and the prompt *)

(** [get_greeting(name)], the resource [greeting://{name}] *)
Definition get_greeting (name : string) : string := "Hello, " ++ name ++ "!".

(** The dict [styles] of [greet_user], in its order. *)
Definition styles : list (string * string) :=
  [ ("friendly", "Please write a warm, friendly greeting");
    ("formal", "Please write a formal, professional greeting");
    ("casual", "Please write a casual, relaxed greeting") ].

(** [styles.get(style, default)] *)
Fixpoint styles_get (style : string) (table : list (string * string)) (default : string)
    : string :=
  match table with
  | [] => default
  | (k, v) :: t => if String.eqb style k then v else styles_get style t default
  end.

(** [greet_user(name, style="friendly")]; [None] is the call that leaves
    [style] out. *)
Definition greet_user (name : string) (style : option string) : string :=
  let style := match style with Some s => s | None => "friendly" end in
  styles_get style styles (styles_get "friendly" styles EmptyString)
  ++ " for someone named " ++ name ++ ".".

(** * Properties *)

Abbreviation AV := ("analysisVariables"%string) (only parsing).

#[local] Arguments String.eqb : simpl never.

(** ** Vocabulary of the statements *)

(** An object with the key [k] occurs somewhere in [v]. *)
Fixpoint has_key (k : string) (v : json) : bool :=
  match v with
  | JObject d =>
      existsb (fun kv => String.eqb k (fst kv) || has_key k (snd kv)) d
  | JList l => existsb (has_key k) l
  | _ => false
  end.

(** What [remove_links_parent_refs] leaves under one key of a dict. *)
Definition pruned_entry (under_av : bool) (k : string) (x : json) : json :=
  match x with
  | JObject links =>
      if under_av && String.eqb k "_links"
      then JObject (keep_self (fun a => remove_links_parent_refs a (Some "self")) links)
      else remove_links_parent_refs x (Some k)
  | _ => remove_links_parent_refs x (Some k)
  end.

Definition is_av (parent_key : option string) : bool :=
  match parent_key with
  | Some p => String.eqb p "analysisVariables"
  | None => false
  end.

(** The first statement of [remove_links_parent_refs] on a dict: under the
    parent key ['analysisVariables'], a dict-valued ['_links'] is replaced
    by its "self" entry alone. *)
Definition links_replaced (parent_key : option string) (d : dict) : dict :=
  if is_av parent_key && dict_mem "_links" d then
    match dict_get "_links" d with
    | Some (JObject links) =>
        dict_set "_links"
          (JObject match dict_get "self" links with
                   | Some a => [("self", a)]
                   | None => []
                   end) d
    | _ => d
    end
  else d.

Definition plain_document : json :=
  JObject [("name", JStr "ADSL"); ("ordinal", JInt 1);
           ("items", JList [JObject [("label", JStr "x")]; JNull])].

(** A node of a tree is addressed by the keys and indices that lead to it. *)
Inductive step : Type :=
| Key (k : string)
| Index (i : nat).

Fixpoint node_at (path : list step) (v : json) : option json :=
  match path with
  | [] => Some v
  | Key k :: rest =>
      match v with
      | JObject d =>
          match dict_get k d with
          | Some x => node_at rest x
          | None => None
          end
      | _ => None
      end
  | Index i :: rest =>
      match v with
      | JList l =>
          match nth_error l i with
          | Some x => node_at rest x
          | None => None
          end
      | _ => None
      end
  end.

(** The field names of the object at [path], in their order. *)
Definition fields_at (path : list step) (v : json) : option (list string) :=
  match node_at path v with
  | Some (JObject d) => Some (keys d)
  | _ => None
  end.

(** [xs] is [ys] with some names left out, the others in the same order. *)
Fixpoint subseq (xs ys : list string) : bool :=
  match xs, ys with
  | [], _ => true
  | _ :: _, [] => false
  | x :: xs', y :: ys' =>
      if String.eqb x y then subseq xs' ys' else subseq xs ys'
  end.

(** Every object of [out] sits where [inp] has an object, and its fields
    are fields of that object, in that object's order. *)
Definition only_restricts (out inp : json) : Prop :=
  forall path ks,
    fields_at path out = Some ks ->
    exists ks', fields_at path inp = Some ks' /\ subseq ks ks' = true.

Abbreviation kept_self links :=
  (keep_self (fun a => remove_links_parent_refs a (Some "self")) links).

Definition is_clean_term (t : json) : Prop :=
  exists a b, t = JObject [("conceptId", a); ("submissionValue", b)].

Definition is_clean_cl (c : json) : Prop :=
  exists a b ts,
    c = JObject [("conceptId", a); ("submissionValue", b); ("terms", JList ts)] /\
    Forall is_clean_term ts.

Definition reordered_package : json :=
  JObject [("codelists",
            JList [JObject [("terms", JList [JObject [("submissionValue", JStr "Y")]]);
                            ("conceptId", JStr "C66742")]])].

Definition variable_links : dict :=
  [("parentProduct", JObject [("href", JStr "/mdr/adam/adamig-1-3")]);
   ("self", JObject [("href", JStr "/mdr/adam/adamig-1-3/variables/STUDYID")]);
   ("parentDatastructure", JObject [("href", JStr "/mdr/adam/adamig-1-3/datastructures/ADSL")])].

Definition variable_entry : dict :=
  [("name", JStr "STUDYID"); ("_links", JObject variable_links)].

(** A "self" entry that itself holds ['analysisVariables'] records. *)
Definition nested_self : json :=
  JObject [("analysisVariables",
            JList [JObject [("_links", JObject [("next", JStr "n")])]])].

Definition api_key_of (w : World) : option string := getenv w "CDISC_API_KEY".

(** The credential is configured: [if not api_key] is false. *)
Definition configured (w : World) : Prop := Py.truthy_opt (api_key_of w) = true.

Definition request (u : string) (api_key : option string) (t : Z) : Request :=
  {| url := u; headers := hdr api_key; timeout := t |}.

(** What the three calls of [fetch] end in for a request. *)
Definition outcome (w : World) (r : Request) : result json :=
  match client_get w r with
  | inl e => inl e
  | inr response =>
      if ((200 <=? status_code response) && (status_code response <=? 299))%Z
      then json_body response
      else inl (HTTPStatusError (status_message response)
                                (status_code response) (text response))
  end.

(** The string a guarded block returns for a request. *)
Definition answered (w : World) (r : Request) (returns : json -> result string)
    : result string :=
  match outcome w r with
  | inl e => handle except_clauses e
  | inr data =>
      match returns data with
      | inl e => handle except_clauses e
      | inr s => ok s
      end
  end.

(** What a tool reaches once the credential is there: an error string of
    its own checks, or one request (its URL and timeout) with what the tool
    returns for the decoded data.  The product list has no such form. *)
Definition plan (c : Call) : option (string + string * Z * (json -> result string)) :=
  let data_of (target : string + string) :=
    match target with
    | inl error => inl error
    | inr u => inr (u, 15%Z, return_data)
    end in
  let sliced (shape : json -> json) (data : json) :=
    ok (return_result (json_dumps (shape data))) in
  let compact (data : json) :=
    ok (return_json_str (Dumps.dumps Dumps.compact data)) in
  let two_level (table : list (string * list string)) (parent child : string)
        (no_parent : string) (no_child : list string -> string) (u : string)
        (shape : json -> json) :=
    match lookup parent table with
    | None => inl no_parent
    | Some allowed =>
        if Py.str_in child allowed then inr (u, 15%Z, sliced shape)
        else inl (no_child allowed)
    end in
  let package_of (package u : string) (returns : json -> result string) :=
    if Py.str_in package ct_package then inr (u, 30%Z, returns)
    else inl (invalid_package package) in
  match c with
  | CDISC_Library_api_product_list => None
  | sdtmig_class_info v x =>
      let base := mdr ++ "sdtmig/" ++ v ++ "/classes" in
      Some (data_of (choose_url "className" x sdtmig_classes
                       (fun c => base ++ "/" ++ c ++ "/datasets?expand=false") base))
  | sdtmig_dataset_info v x =>
      let base := mdr ++ "sdtmig/" ++ v ++ "/datasets" in
      Some (data_of (choose_url "dataset" (Some x) sdtmig_datasets
                       (fun d => base ++ "/" ++ d) base))
  | sdtm_model_class_info v x =>
      let base := mdr ++ "sdtm/" ++ v ++ "/classes" in
      Some (data_of (choose_url "className" x sdtm_classes
                       (fun c => base ++ "/" ++ c) base))
  | sdtm_model_dataset_info v x =>
      let base := mdr ++ "sdtm/" ++ v ++ "/datasets" in
      Some (data_of (choose_url "dataset" x sdtm_datasets
                       (fun d => base ++ "/" ++ d) base))
  | sendig_class_info v x =>
      let base := mdr ++ "sendig/" ++ v ++ "/classes" in
      Some (data_of (choose_url "className" x sendig_classes
                       (fun c => base ++ "/" ++ c) base))
  | sendig_dataset_info v x =>
      let base := mdr ++ "sendig/" ++ v ++ "/datasets" in
      Some (data_of (choose_url "dataset" x sendig_datasets
                       (fun d => base ++ "/" ++ d) base))
  | cdashig_class_info v x =>
      let base := mdr ++ "cdashig/" ++ v ++ "/classes" in
      Some (data_of (choose_url "className" x cdashig_classes
                       (fun c => base ++ "/" ++ c ++ "/domains") base))
  | cdashig_domain_info v x =>
      let base := mdr ++ "cdashig/" ++ v ++ "/domains" in
      Some (data_of (choose_url "domains" x cdashig_domains
                       (fun d => base ++ "/" ++ d) base))
  | cdashig_scenarios_info v x =>
      let base := mdr ++ "cdashig/" ++ v ++ "/scenarios" in
      Some (inr (match x with
                 | Some s => if Py.truthy s then base ++ "/" ++ s else base
                 | None => base
                 end, 15%Z, return_data))
  | cdash_model_class_info v x =>
      let base := mdr ++ "cdash/" ++ v ++ "/classes" in
      Some (data_of (choose_url "className" x cdash_classes
                       (fun c => base ++ "/" ++ c) base))
  | cdash_model_domain_info v x =>
      let base := mdr ++ "cdash/" ++ v ++ "/domains" in
      Some (data_of (choose_url "domain" x cdash_domains
                       (fun d => base ++ "/" ++ d) base))
  | adam_product_info p =>
      Some (inr (mdr ++ "adam/" ++ p, 15%Z, sliced remove_all_analysis_variables))
  | adam_datastructure_info p d =>
      Some (two_level ALLOWED_adam_datastructure_combinations p d
              ("Error: Invalid product '" ++ p ++ "'. Valid products are: "
               ++ Py.join ", " (map fst ALLOWED_adam_datastructure_combinations))
              (fun allowed =>
                 "Error: Invalid datastructure '" ++ d ++ "' for product '" ++ p
                 ++ "'. Valid datastructures are: " ++ Py.join ", " allowed)
              (mdr ++ "adam/" ++ p ++ "/datastructures/" ++ d)
              (fun j => remove_links_parent_refs j None))
  | qrs_info i v =>
      Some (two_level ALLOWED_qrs_combinations i v
              ("Error: Invalid instrument '" ++ i ++ "'. Valid instruments are: "
               ++ Py.join ", " (map fst ALLOWED_qrs_combinations))
              (fun allowed =>
                 "Error: Invalid version '" ++ v ++ "' for instrument '" ++ i
                 ++ "'. Valid versions are: " ++ Py.join ", " allowed)
              (mdr ++ "qrs/instruments/" ++ i ++ "/versions/" ++ v)
              (fun j => j))
  | package_ct_info p =>
      Some (package_of p (mdr ++ "ct/packages/" ++ p)
              (fun raw_data => final <-? final_data raw_data ;; compact final))
  | package_ct_codelist_info p cl =>
      Some (package_of p (mdr ++ "ct/packages/" ++ p ++ "/codelists/" ++ cl) compact)
  | package_ct_codelist_term_info p cl t =>
      Some (package_of p (mdr ++ "ct/packages/" ++ p ++ "/codelists/" ++ cl
                          ++ "/terms/" ++ t) compact)
  end.

(** Running a plan in a world. *)
Definition run_plan (p : string + string * Z * (json -> result string)) (w : World)
    : result string * list Request :=
  if Py.truthy_opt (api_key_of w) then
    match p with
    | inl error => (ok error, [])
    | inr (u, t, returns) =>
        (answered w (request u (api_key_of w) t) returns, [request u (api_key_of w) t])
    end
  else (ok no_api_key, []).

Definition products_url : string :=
  "https://api.library.cdisc.org/api/mdr/products?expand=false".

(** A process without [CDISC_API_KEY], with a client that refuses a header
    whose value is [None]. *)
Definition no_credential : World :=
  {| getenv := fun _ => None;
     client_get := fun _ =>
       raise (PyException "Header value must be str or bytes, not <class 'NoneType'>") |}.

(** A process with the credential set, whose client gives the same answer
    to every request. *)
Definition demo_env (name : string) : option string :=
  if String.eqb name "CDISC_API_KEY" then Some "secret" else None.

Definition answering (r : result Response) : World :=
  {| getenv := demo_env; client_get := fun _ => r |}.

Definition response_200 (data : json) : Response :=
  {| status_code := 200; text := EmptyString; status_message := EmptyString;
     json_body := ok data |}.

(** The identifier a call supplies to a tool that looks it up in a list:
    the parameter's name, the value and the list. *)
Definition checked_identifier (c : Call) : option (string * string * list string) :=
  match c with
  | sdtmig_class_info _ (Some x) => Some ("className", x, sdtmig_classes)
  | sdtmig_dataset_info _ x => Some ("dataset", x, sdtmig_datasets)
  | sdtm_model_class_info _ (Some x) => Some ("className", x, sdtm_classes)
  | sdtm_model_dataset_info _ (Some x) => Some ("dataset", x, sdtm_datasets)
  | sendig_class_info _ (Some x) => Some ("className", x, sendig_classes)
  | sendig_dataset_info _ (Some x) => Some ("dataset", x, sendig_datasets)
  | cdashig_class_info _ (Some x) => Some ("className", x, cdashig_classes)
  | cdashig_domain_info _ (Some x) => Some ("domains", x, cdashig_domains)
  | cdash_model_class_info _ (Some x) => Some ("className", x, cdash_classes)
  | cdash_model_domain_info _ (Some x) => Some ("domain", x, cdash_domains)
  | _ => None
  end.

(** The package a call supplies to a controlled-terminology tool. *)
Definition checked_package (c : Call) : option string :=
  match c with
  | package_ct_info p
  | package_ct_codelist_info p _
  | package_ct_codelist_term_info p _ _ => Some p
  | _ => None
  end.

(** The versions the docstring of [get_sdtmig_class_info] gives as
    "all available versions". *)
Definition sdtmig_versions : list string :=
  ["3-1-2"; "3-1-3"; "3-2"; "3-3"; "3-4"; "ap-1-0"; "md-1-0"; "md-1-1"].

Definition response_404 : Response :=
  {| status_code := 404; text := "Not Found"; status_message := "Client error";
     json_body := raise (PyException "Expecting value") |}.

Fixpoint filler (n : nat) : string :=
  match n with
  | O => EmptyString
  | S k => String "a" (filler k)
  end.

(** An object whose serialization is longer than the limit. *)
Definition oversized_object : json := JObject [("definition", JStr (filler limit))].

(** [if len(s) > 130000: s[:130000] + marker else: s] *)
Definition cut (marker s : string) : string :=
  if (limit <? Py.len s)%nat then Py.take limit s ++ marker else s.

(** What a tool returns for a decoded answer [data]. *)
Definition returned_for (c : Call) (data : json) (returned : result string) : Prop :=
  match c with
  | CDISC_Library_api_product_list =>
      returned = ok (Dumps.dumps Dumps.unicode data)
  | adam_product_info _ =>
      returned
      = ok (cut "...The data is too long, please shorten the request."
              (json_dumps (remove_all_analysis_variables data)))
  | adam_datastructure_info _ _ =>
      returned
      = ok (cut "...The data is too long, please shorten the request."
              (json_dumps (remove_links_parent_refs data None)))
  | qrs_info _ _ =>
      returned
      = ok (cut "...The data is too long, please shorten the request." (json_dumps data))
  | package_ct_info _ =>
      forall final, final_data data = ok final ->
      returned = ok (cut truncated (Dumps.dumps Dumps.compact final))
  | package_ct_codelist_info _ _ | package_ct_codelist_term_info _ _ _ =>
      returned = ok (cut truncated (Dumps.dumps Dumps.compact data))
  | _ =>
      (Py.len (json_dumps data) <= limit)%nat -> returned = ok (json_dumps data)
  end.

Definition small_codelist : json :=
  JObject [("conceptId", JStr "C66742"); ("submissionValue", JStr "NY")].

(** The parent key an item at the end of [path] is visited with, when the
    walk starts with [parent_key]: the last key on the path (indices pass
    the key of their list on). *)
Fixpoint last_key (parent_key : option string) (path : list step) : option string :=
  match path with
  | [] => parent_key
  | Key k :: rest => last_key (Some k) rest
  | Index _ :: rest => last_key parent_key rest
  end.

Definition is_object (v : json) : Prop := exists d, v = JObject d.

(** A codelist as the package endpoint delivers it: an object whose
    ['terms'], when present, is a list of objects. *)
Definition is_codelist (cl : json) : Prop :=
  exists d, cl = JObject d /\
    (dict_mem "terms" d = false \/
     exists ts, dict_get "terms" d = Some (JList ts) /\ Forall is_object ts).

(** The two identifying fields of a record, [null] for an absent one. *)
Definition identifying (v : json) : dict :=
  match v with
  | JObject d =>
      [("conceptId", none_or (dict_get "conceptId" d));
       ("submissionValue", none_or (dict_get "submissionValue" d))]
  | _ => []
  end.

Definition terms_of (cl : json) : list json :=
  match cl with
  | JObject d => match dict_get "terms" d with Some (JList ts) => ts | _ => [] end
  | _ => []
  end.

(** A codelist reduced to its identifying fields and those of its terms. *)
Definition minimal_codelist (cl : json) : json :=
  JObject (identifying cl
           ++ [("terms", JList (map (fun t => JObject (identifying t)) (terms_of cl)))])%list.

(** The call of the same tool that leaves the identifier out (the empty
    string where the parameter has no default). *)
Definition without_identifier (c : Call) : Call :=
  match c with
  | sdtmig_class_info v _ => sdtmig_class_info v None
  | sdtmig_dataset_info v _ => sdtmig_dataset_info v EmptyString
  | sdtm_model_class_info v _ => sdtm_model_class_info v None
  | sdtm_model_dataset_info v _ => sdtm_model_dataset_info v None
  | sendig_class_info v _ => sendig_class_info v None
  | sendig_dataset_info v _ => sendig_dataset_info v None
  | cdashig_class_info v _ => cdashig_class_info v None
  | cdashig_domain_info v _ => cdashig_domain_info v None
  | cdashig_scenarios_info v _ => cdashig_scenarios_info v None
  | cdash_model_class_info v _ => cdash_model_class_info v None
  | cdash_model_domain_info v _ => cdash_model_domain_info v None
  | _ => c
  end.

(** The [base_url] of the tools that have a listing request, the f-string
    of the source with the version as the caller supplied it (lines 85, 139,
    198, 255, 314, 370, 428, 486, 543, 597 and 653). *)
Definition listing_url (c : Call) : option string :=
  match c with
  | sdtmig_class_info version _ => Some (mdr ++ "sdtmig/" ++ version ++ "/classes")
  | sdtmig_dataset_info version _ => Some (mdr ++ "sdtmig/" ++ version ++ "/datasets")
  | sdtm_model_class_info version _ => Some (mdr ++ "sdtm/" ++ version ++ "/classes")
  | sdtm_model_dataset_info version _ => Some (mdr ++ "sdtm/" ++ version ++ "/datasets")
  | sendig_class_info version _ => Some (mdr ++ "sendig/" ++ version ++ "/classes")
  | sendig_dataset_info version _ => Some (mdr ++ "sendig/" ++ version ++ "/datasets")
  | cdashig_class_info version _ => Some (mdr ++ "cdashig/" ++ version ++ "/classes")
  | cdashig_domain_info version _ => Some (mdr ++ "cdashig/" ++ version ++ "/domains")
  | cdashig_scenarios_info version _ => Some (mdr ++ "cdashig/" ++ version ++ "/scenarios")
  | cdash_model_class_info version _ => Some (mdr ++ "cdash/" ++ version ++ "/classes")
  | cdash_model_domain_info version _ => Some (mdr ++ "cdash/" ++ version ++ "/domains")
  | _ => None
  end.

(** What a tool writes after the identifier in its detail URL (lines 88 and
    432; nothing in the other tools).  It is read off the tool alone, no
    argument of the call is looked at. *)
Definition detail_tail (c : Call) : string :=
  match c with
  | sdtmig_class_info _ _ => "/datasets?expand=false"
  | cdashig_class_info _ _ => "/domains"
  | _ => EmptyString
  end.

(** The timeout a tool passes to [client.get]. *)
Definition timeout_of (c : Call) : Z :=
  match checked_package c with Some _ => 30 | None => 15 end.

Definition sample_codelists : list json :=
  [JObject [("conceptId", JStr "C66742");
            ("definition", JStr "A term that is used to indicate ...");
            ("submissionValue", JStr "NY");
            ("terms", JList [JObject [("conceptId", JStr "C49487");
                                      ("preferredTerm", JStr "No");
                                      ("submissionValue", JStr "N")];
                             JObject [("conceptId", JStr "C49488");
                                      ("submissionValue", JStr "Y")]])];
   JObject [("conceptId", JStr "C66781")]].

Definition sample_package_fields : dict :=
  [("name", JStr "SDTM CT 2025-09-26"); ("codelists", JList sample_codelists)].

Definition sample_package : json := JObject sample_package_fields.

Definition sample_datastructure : json :=
  JObject [("name", JStr "ADSL");
           ("_links", JObject [("self", JStr "/mdr/adam/adamig-1-3/datastructures/ADSL");
                               ("parentProduct", JStr "/mdr/adam/adamig-1-3")]);
           ("analysisVariableSets",
            JList [JObject [("name", JStr "Identifier");
                            ("analysisVariables",
                             JList [JObject [("name", JStr "STUDYID");
                                             ("_links", JObject variable_links)];
                                    JObject [("name", JStr "USUBJID");
                                             ("_links", JObject [("parentProduct", JNull)])]])]])].

(** A list answer of one long string. *)
Definition oversized_list : json := JList [JStr (filler limit)].

(** * Properties of the shapers *)

Lemma append_empty_r (s : string) : s ++ EmptyString = s.
Proof. induction s as [|c s IH]; simpl; [reflexivity | now rewrite IH]. Qed.

Lemma some_inj {A} (a b : A) : Some a = Some b -> a = b.
Proof. intros H. now inversion H. Qed.

Lemma map_id_on {A} (f : A -> A) (l : list A) :
  Forall (fun x => f x = x) l -> map f l = l.
Proof.
  induction 1 as [|x t Hx _ IH]; simpl; [reflexivity|].
  now rewrite Hx, IH.
Qed.

Lemma map_idem_on {A} (f : A -> A) (l : list A) :
  Forall (fun x => f (f x) = f x) l -> map f (map f l) = map f l.
Proof.
  induction 1 as [|x t Hx _ IH]; simpl; [reflexivity|].
  now rewrite Hx, IH.
Qed.

Lemma keys_map_values (g : string * json -> json) (d : dict) :
  keys (map (fun kv => (fst kv, g kv)) d) = keys d.
Proof.
  unfold keys. rewrite map_map. simpl. reflexivity.
Qed.

Lemma dict_get_map_values (g : string -> json -> json) (k : string) (d : dict) :
  dict_get k (map (fun kv => (fst kv, g (fst kv) (snd kv))) d)
  = option_map (g k) (dict_get k d).
Proof.
  induction d as [|[k' v] t IH]; simpl; [reflexivity|].
  destruct (String.eqb k k') eqn:E.
  - apply String.eqb_eq in E. subst. reflexivity.
  - exact IH.
Qed.

Lemma dict_mem_get (k : string) (d : dict) :
  dict_mem k d = true <-> exists v, dict_get k d = Some v.
Proof.
  induction d as [|[k' v] t IH]; simpl.
  - split; [discriminate | intros [v H]; discriminate].
  - destruct (String.eqb k k'); simpl.
    + split; [eauto | reflexivity].
    + exact IH.
Qed.

(** The source order (store [[]] under the key, then walk the items) gives
    the same tree as [remove_all_analysis_variables] on a dict with unique
    keys. *)
Lemma remove_all_analysis_variables_two_phase (d : dict) :
  NoDup (keys d) ->
  remove_all_analysis_variables (JObject d)
  = JObject (map (fun kv => (fst kv, remove_all_analysis_variables (snd kv)))
               (if dict_mem AV d then dict_set AV (JList []) d else d)).
Proof.
  intros Hnd. simpl. f_equal.
  induction d as [|[k v] t IH]; simpl; [reflexivity|].
  inversion Hnd as [|? ? Hk Ht]; subst.
  rewrite (String.eqb_sym AV k).
  fold (dict_mem AV t).
  destruct (String.eqb k AV) eqn:E; simpl.
  - f_equal. apply String.eqb_eq in E. subst k.
    apply map_ext_in. intros [k' v'] Hin. simpl.
    destruct (String.eqb k' AV) eqn:E'; [|reflexivity].
    apply String.eqb_eq in E'. subst k'.
    exfalso. apply Hk. unfold keys. apply in_map_iff. exists (AV, v'). auto.
  - rewrite (IH Ht). destruct (dict_mem AV t); reflexivity.
Qed.

Lemma remove_all_analysis_variables_twice (v : json) :
  remove_all_analysis_variables (remove_all_analysis_variables v)
  = remove_all_analysis_variables v.
Proof.
  induction v as [| | | | |l IH|d IH] using json_nested_ind; simpl; try reflexivity.
  - f_equal. apply map_idem_on. exact IH.
  - f_equal. rewrite map_map. apply map_ext_in.
    intros [k x] Hin. simpl.
    destruct (String.eqb k "analysisVariables"); [reflexivity|].
    f_equal. rewrite Forall_forall in IH. exact (IH _ Hin).
Qed.

(** After one application every ['analysisVariables'] field of every object
    holds the empty list. *)
Lemma remove_all_analysis_variables_cleared (d d' : dict) (x : json) :
  remove_all_analysis_variables (JObject d) = JObject d' ->
  dict_get AV d' = Some x -> x = JList [].
Proof.
  simpl. intros H Hget. inversion H; subst d'; clear H.
  rewrite (dict_get_map_values
             (fun k v => if String.eqb k "analysisVariables" then JList []
                         else remove_all_analysis_variables v)) in Hget.
  destruct (dict_get AV d); simpl in Hget; [|discriminate].
  now inversion Hget.
Qed.

(** ** Trees without the target field *)

Lemma existsb_false_in {A} (f : A -> bool) (l : list A) :
  existsb f l = false -> forall x, In x l -> f x = false.
Proof.
  induction l as [|y t IH]; simpl; intros H x Hin; [contradiction|].
  apply orb_false_iff in H. destruct H as [Hy Ht].
  destruct Hin as [->|Hin]; [exact Hy | exact (IH Ht x Hin)].
Qed.

Lemma has_key_object (k : string) (d : dict) :
  has_key k (JObject d) = false ->
  forall kv, In kv d -> String.eqb k (fst kv) = false /\ has_key k (snd kv) = false.
Proof.
  simpl. intros H kv Hin.
  apply orb_false_iff. exact (existsb_false_in _ _ H kv Hin).
Qed.

Lemma has_key_list (k : string) (l : list json) :
  has_key k (JList l) = false -> forall x, In x l -> has_key k x = false.
Proof.
  simpl. apply existsb_false_in.
Qed.

Lemma remove_all_analysis_variables_absent (v : json) :
  has_key AV v = false -> remove_all_analysis_variables v = v.
Proof.
  induction v as [| | | | |l IH|d IH] using json_nested_ind; try reflexivity.
  - intros H. simpl. f_equal. apply map_id_on.
    rewrite Forall_forall in *. intros x Hin.
    apply IH; [exact Hin | exact (has_key_list _ _ H x Hin)].
  - intros H. simpl. f_equal. apply map_id_on.
    rewrite Forall_forall in *. intros [k x] Hin.
    destruct (has_key_object _ _ H _ Hin) as [Hk Hx]. simpl in *.
    rewrite String.eqb_sym, Hk. f_equal. exact (IH _ Hin Hx).
Qed.

Lemma remove_links_parent_refs_object (d : dict) (pk : option string) :
  remove_links_parent_refs (JObject d) pk
  = JObject (map (fun kv => (fst kv, pruned_entry (is_av pk) (fst kv) (snd kv))) d).
Proof. reflexivity. Qed.

Lemma pruned_entry_plain (b : bool) (k : string) (x : json) :
  b && String.eqb k "_links" = false ->
  pruned_entry b k x = remove_links_parent_refs x (Some k).
Proof.
  intros H. unfold pruned_entry. rewrite H. destruct x; reflexivity.
Qed.

Lemma remove_links_parent_refs_no_links (v : json) :
  has_key "_links" v = false -> forall pk, remove_links_parent_refs v pk = v.
Proof.
  induction v as [| | | | |l IH|d IH] using json_nested_ind; try reflexivity.
  - intros H pk. simpl. f_equal. apply map_id_on.
    rewrite Forall_forall in *. intros x Hin.
    apply IH; [exact Hin | exact (has_key_list _ _ H x Hin)].
  - intros H pk. rewrite remove_links_parent_refs_object. f_equal. apply map_id_on.
    rewrite Forall_forall in *. intros [k x] Hin.
    destruct (has_key_object _ _ H _ Hin) as [Hk Hx]. simpl in *.
    rewrite pruned_entry_plain.
    + f_equal. exact (IH _ Hin Hx _).
    + rewrite String.eqb_sym, Hk. apply andb_false_r.
Qed.

Lemma remove_links_parent_refs_no_av (v : json) :
  has_key AV v = false ->
  forall pk, is_av pk = false -> remove_links_parent_refs v pk = v.
Proof.
  induction v as [| | | | |l IH|d IH] using json_nested_ind; try reflexivity.
  - intros H pk Hpk. simpl. f_equal. apply map_id_on.
    rewrite Forall_forall in *. intros x Hin.
    apply IH; [exact Hin | exact (has_key_list _ _ H x Hin) | exact Hpk].
  - intros H pk Hpk. rewrite remove_links_parent_refs_object, Hpk. f_equal.
    apply map_id_on. rewrite Forall_forall in *. intros [k x] Hin.
    destruct (has_key_object _ _ H _ Hin) as [Hk Hx]. simpl in *.
    rewrite pruned_entry_plain by reflexivity.
    f_equal. apply (IH _ Hin Hx). simpl. now rewrite String.eqb_sym.
Qed.

Lemma final_data_without_codelists (d : dict) :
  dict_mem "codelists" d = false ->
  final_data (JObject d) = ok (JObject [("codelists", JList [])]).
Proof.
  intros H. unfold final_data, minimized_codelists, get_codelists.
  destruct (dict_get "codelists" d) as [v|] eqn:E; [|reflexivity].
  assert (dict_mem "codelists" d = true) by (apply dict_mem_get; eauto).
  congruence.
Qed.

(** [C5] On a tree with no occurrence of the target field, Subtree-clear
    and Link-prune return their input unchanged (for Link-prune both when
    no ['analysisVariables'] key occurs and when no ['_links'] key occurs).
    The codelist minimisation does not: on an object without ['codelists']
    it returns the object [{"codelists": []}]. *)
Theorem shapers_without_target_field (v : json) :
  (has_key AV v = false -> remove_all_analysis_variables v = v) /\
  (has_key AV v = false -> remove_links_parent_refs v None = v) /\
  (has_key "_links" v = false -> forall pk, remove_links_parent_refs v pk = v) /\
  (forall d, v = JObject d -> dict_mem "codelists" d = false ->
             final_data v = ok (JObject [("codelists", JList [])])).
Proof.
  split; [|split; [|split]].
  - apply remove_all_analysis_variables_absent.
  - intros H. now apply remove_links_parent_refs_no_av.
  - apply remove_links_parent_refs_no_links.
  - intros d -> H. now apply final_data_without_codelists.
Qed.

Lemma shapers_without_target_field_witness :
  remove_all_analysis_variables plain_document = plain_document /\
  remove_links_parent_refs plain_document None = plain_document /\
  remove_links_parent_refs plain_document (Some AV) = plain_document /\
  final_data plain_document = ok (JObject [("codelists", JList [])]).
Proof.
  destruct (shapers_without_target_field plain_document) as (H1 & H2 & H3 & H4).
  split; [|split; [|split]].
  - apply H1. reflexivity.
  - apply H2. reflexivity.
  - apply H3. reflexivity.
  - apply (H4 _ eq_refl). reflexivity.
Defined.

(** The codelist minimisation is no identity on the documents without its
    field: a document without any ['codelists'] field does not come back
    unchanged. *)
Lemma field_whitelist_changes_plain_document :
  ~ (forall v, has_key "codelists" v = false -> final_data v = ok v).
Proof.
  intros H. specialize (H plain_document eq_refl). discriminate H.
Qed.

(** ** Fields node by node *)

Lemma subseq_refl (xs : list string) : subseq xs xs = true.
Proof.
  induction xs as [|x t IH]; simpl; [reflexivity|].
  now rewrite String.eqb_refl.
Qed.

Lemma subseq_nil_l (ys : list string) : subseq [] ys = true.
Proof. destruct ys; reflexivity. Qed.

Lemma keep_self_keys (walk : json -> json) (links : dict) :
  subseq (keys (keep_self walk links)) (keys links) = true.
Proof.
  induction links as [|[k a] t IH]; simpl; [reflexivity|].
  destruct (String.eqb "self" k) eqn:E; simpl.
  - rewrite E. apply subseq_nil_l.
  - destruct (keys (keep_self walk t)) as [|x xs] eqn:K; [reflexivity|].
    assert (x = "self") as ->.
    { clear -K. induction t as [|[k' a'] t' IH]; simpl in K; [discriminate|].
      destruct (String.eqb "self" k'); [now inversion K | auto]. }
    rewrite E. exact IH.
Qed.

Lemma keep_self_get (walk : json -> json) (links : dict) (k : string) (y : json) :
  dict_get k (keep_self walk links) = Some y ->
  exists a, dict_get k links = Some a /\ y = walk a.
Proof.
  induction links as [|[k' a] t IH]; simpl; [discriminate|].
  destruct (String.eqb "self" k') eqn:E; simpl.
  - destruct (String.eqb k "self") eqn:E'; [|discriminate].
    intros H. inversion H; subst. apply String.eqb_eq in E, E'. subst.
    rewrite String.eqb_refl. eauto.
  - intros H. destruct (IH H) as (a' & Hget & ->).
    destruct (String.eqb k k') eqn:E'; [|eauto].
    apply String.eqb_eq in E'. subst k'.
    clear -H E. exfalso.
    induction t as [|[k2 a2] t2 IH2]; simpl in H; [discriminate|].
    destruct (String.eqb "self" k2); [|auto].
    simpl in H. destruct (String.eqb k "self") eqn:E2; [|discriminate].
    apply String.eqb_eq in E2. subst. rewrite String.eqb_refl in E. discriminate.
Qed.

Lemma node_at_empty_list (path : list step) (n : json) :
  node_at path (JList []) = Some n -> path = [] /\ n = JList [].
Proof.
  destruct path as [|[k|i] rest]; simpl.
  - intros H. now inversion H.
  - discriminate.
  - destruct i; discriminate.
Qed.

Lemma node_at_remove_all_analysis_variables (path : list step) :
  forall v n',
    node_at path (remove_all_analysis_variables v) = Some n' ->
    exists n, node_at path v = Some n /\
              (n' = remove_all_analysis_variables n \/ n' = JList []).
Proof.
  induction path as [|[k|i] rest IH]; intros v n' H.
  - simpl in H. inversion H; subst. exists v. simpl. auto.
  - destruct v; try discriminate H. simpl in H.
    rewrite (dict_get_map_values
               (fun k v => if String.eqb k "analysisVariables" then JList []
                           else remove_all_analysis_variables v)) in H.
    simpl. destruct (dict_get k fields) as [x|]; simpl in H; [|discriminate].
    destruct (String.eqb k "analysisVariables").
    + destruct (node_at_empty_list _ _ H) as [-> ->]. exists x. simpl. auto.
    + exact (IH _ _ H).
  - destruct v; try discriminate H. simpl in H. rewrite nth_error_map in H.
    simpl. destruct (nth_error items i) as [x|]; simpl in H; [|discriminate].
    exact (IH _ _ H).
Qed.

Lemma remove_all_analysis_variables_restricts (v : json) :
  only_restricts (remove_all_analysis_variables v) v.
Proof.
  intros path ks H. unfold fields_at in *.
  destruct (node_at path (remove_all_analysis_variables v)) as [n'|] eqn:E;
    [|discriminate].
  destruct (node_at_remove_all_analysis_variables _ _ _ E) as (n & -> & [->| ->]);
    [|discriminate].
  destruct n; try discriminate H. simpl in H. inversion H; subst.
  exists (keys fields). split; [reflexivity|].
  rewrite (keys_map_values
             (fun kv => if String.eqb (fst kv) "analysisVariables" then JList []
                        else remove_all_analysis_variables (snd kv))).
  apply subseq_refl.
Qed.

(** [C10] Subtree-clear is idempotent, and for the reason the claim gives:
    on every JSON tree, applying [remove_all_analysis_variables] to its own
    result changes nothing, and after one application every
    ['analysisVariables'] field, of every object at any depth of the result,
    already holds the empty list. *)
Theorem remove_all_analysis_variables_idempotent (v : json) :
  remove_all_analysis_variables (remove_all_analysis_variables v)
  = remove_all_analysis_variables v /\
  (forall (path : list step) (d : dict) (x : json),
     node_at path (remove_all_analysis_variables v) = Some (JObject d) ->
     dict_get AV d = Some x ->
     x = JList []).
Proof.
  split; [apply remove_all_analysis_variables_twice|].
  intros path d x Hnode Hget.
  destruct (node_at_remove_all_analysis_variables _ _ _ Hnode) as (n & _ & [Hn|Hn]);
    [|discriminate Hn].
  destruct n; try discriminate Hn.
  exact (remove_all_analysis_variables_cleared fields d x (eq_sym Hn) Hget).
Qed.

Lemma remove_all_analysis_variables_idempotent_witness :
  remove_all_analysis_variables (remove_all_analysis_variables sample_datastructure)
  = remove_all_analysis_variables sample_datastructure /\
  node_at [Key "analysisVariableSets"; Index 0]
    (remove_all_analysis_variables sample_datastructure)
  = Some (JObject [("name", JStr "Identifier"); ("analysisVariables", JList [])]) /\
  dict_get AV [("name", JStr "Identifier"); ("analysisVariables", JList [])]
  = Some (JList []).
Proof.
  destruct (remove_all_analysis_variables_idempotent sample_datastructure)
    as [Htwice Hcleared].
  split; [exact Htwice|].
  split; [reflexivity|].
  exact (f_equal Some
           (Hcleared [Key "analysisVariableSets"; Index 0]
              [("name", JStr "Identifier"); ("analysisVariables", JList [])]
              (JList []) eq_refl eq_refl)).
Defined.

Lemma node_at_remove_links_parent_refs (path : list step) :
  (forall v pk n',
     node_at path (remove_links_parent_refs v pk) = Some n' ->
     exists n, node_at path v = Some n /\
       ((exists pk', n' = remove_links_parent_refs n pk') \/
        (exists links, n = JObject links /\ n' = JObject (kept_self links)))) /\
  (forall links n',
     node_at path (JObject (kept_self links)) = Some n' ->
     exists n, node_at path (JObject links) = Some n /\
       ((exists pk', n' = remove_links_parent_refs n pk') \/
        (exists links', n = JObject links' /\ n' = JObject (kept_self links')))).
Proof.
  induction path as [|[k|i] rest [IHv IHl]]; split.
  - intros v pk n' H. simpl in H. inversion H; subst. exists v. simpl. eauto.
  - intros links n' H. simpl in H. inversion H; subst.
    exists (JObject links). simpl. eauto.
  - intros v pk n' H. destruct v; try discriminate H.
    rewrite remove_links_parent_refs_object in H. simpl in H.
    rewrite (dict_get_map_values (pruned_entry (is_av pk))) in H.
    simpl. destruct (dict_get k fields) as [x|]; simpl in H; [|discriminate].
    unfold pruned_entry in H.
    destruct x; try exact (IHv _ _ _ H).
    destruct (is_av pk && String.eqb k "_links"); [exact (IHl _ _ H) | exact (IHv _ _ _ H)].
  - intros links n' H. simpl in H.
    destruct (dict_get k (kept_self links)) as [y|] eqn:E; [|discriminate].
    destruct (keep_self_get _ _ _ _ E) as (a & Hget & ->).
    simpl. rewrite Hget. exact (IHv _ _ _ H).
  - intros v pk n' H. destruct v; try discriminate H. simpl in H.
    rewrite nth_error_map in H.
    simpl. destruct (nth_error items i) as [x|]; simpl in H; [|discriminate].
    exact (IHv _ _ _ H).
  - intros links n' H. discriminate H.
Qed.

Lemma remove_links_parent_refs_restricts (v : json) (pk : option string) :
  only_restricts (remove_links_parent_refs v pk) v.
Proof.
  intros path ks H. unfold fields_at in *.
  destruct (node_at path (remove_links_parent_refs v pk)) as [n'|] eqn:E;
    [|discriminate].
  destruct (proj1 (node_at_remove_links_parent_refs path) _ _ _ E)
    as (n & -> & [[pk' ->] | (links & -> & ->)]).
  - destruct n; try discriminate H.
    rewrite remove_links_parent_refs_object in H. inversion H; subst.
    exists (keys fields). split; [reflexivity|].
    rewrite (keys_map_values (fun kv => pruned_entry (is_av pk') (fst kv) (snd kv))).
    apply subseq_refl.
  - inversion H; subst. exists (keys links). split; [reflexivity|].
    apply keep_self_keys.
Qed.

(** ** The shape the codelist minimisation builds *)

Lemma rbind_ok {A B} (r : result A) (k : A -> result B) (b : B) :
  rbind r k = ok b -> exists a, r = ok a /\ k a = ok b.
Proof.
  destruct r as [e|a]; simpl; [discriminate | eauto].
Qed.

Lemma for_each_Forall {A B} (f : A -> result B) (P : B -> Prop) :
  (forall x y, f x = ok y -> P y) ->
  forall l ys, for_each f l = ok ys -> Forall P ys.
Proof.
  intros Hf. induction l as [|x t IH]; simpl; intros ys H.
  - inversion H. constructor.
  - apply rbind_ok in H. destruct H as (y & Hy & H).
    apply rbind_ok in H. destruct H as (ys' & Hys & H).
    inversion H; subst. constructor; eauto.
Qed.

Lemma clean_term_shape (term out : json) :
  clean_term term = ok out -> is_clean_term out.
Proof.
  unfold clean_term. intros H.
  apply rbind_ok in H. destruct H as (a & _ & H).
  apply rbind_ok in H. destruct H as (b & _ & H).
  inversion H. now exists a, b.
Qed.

Lemma clean_cl_shape (cl out : json) :
  clean_cl cl = ok out -> is_clean_cl out.
Proof.
  unfold clean_cl. intros H.
  apply rbind_ok in H. destruct H as (a & _ & H).
  apply rbind_ok in H. destruct H as (b & _ & H).
  apply rbind_ok in H. destruct H as (ts & Hts & H).
  inversion H. exists a, b, ts. split; [reflexivity|].
  destruct cl; try (inversion Hts; constructor).
  destruct (dict_mem "terms" fields); [|inversion Hts; constructor].
  apply rbind_ok in Hts. destruct Hts as (items & _ & Hts).
  exact (for_each_Forall _ _ clean_term_shape _ _ Hts).
Qed.

Lemma final_data_shape (raw_data out : json) :
  final_data raw_data = ok out ->
  exists cls, out = JObject [("codelists", JList cls)] /\ Forall is_clean_cl cls.
Proof.
  unfold final_data, minimized_codelists. intros H.
  apply rbind_ok in H. destruct H as (cls & Hcls & H).
  inversion H. exists cls. split; [reflexivity|].
  apply rbind_ok in Hcls. destruct Hcls as (c & _ & Hcls).
  apply rbind_ok in Hcls. destruct Hcls as (items & _ & Hcls).
  exact (for_each_Forall _ _ clean_cl_shape _ _ Hcls).
Qed.

(** [C3] The two tree walks only restrict: every object of the output of
    Subtree-clear and of Link-prune stands at a place where the input has
    an object, and its fields are fields of that object in the same
    order.  The codelist minimisation builds its output anew: one object
    with the single field ['codelists'], whose items have exactly the
    fields conceptId, submissionValue, terms in this order, the terms
    exactly conceptId, submissionValue. *)
Theorem shaping_fields :
  (forall v, only_restricts (remove_all_analysis_variables v) v) /\
  (forall v pk, only_restricts (remove_links_parent_refs v pk) v) /\
  (forall v out, final_data v = ok out ->
     exists cls, out = JObject [("codelists", JList cls)] /\ Forall is_clean_cl cls).
Proof.
  split; [|split].
  - exact remove_all_analysis_variables_restricts.
  - exact remove_links_parent_refs_restricts.
  - exact final_data_shape.
Qed.

Lemma shaping_fields_witness :
  exists cls,
    JObject [("codelists",
              JList [JObject [("conceptId", JStr "C66742");
                              ("submissionValue", JNull);
                              ("terms", JList [JObject [("conceptId", JNull);
                                                        ("submissionValue", JStr "Y")]])]])]
    = JObject [("codelists", JList cls)] /\ Forall is_clean_cl cls.
Proof.
  apply (proj2 (proj2 shaping_fields) reordered_package). reflexivity.
Defined.

(** The codelist minimisation adds the field submissionValue to a codelist
    that has none and puts conceptId before terms whatever the input's
    order: it does more than restrict. *)
Lemma field_whitelist_invents_and_reorders :
  ~ (forall v out, final_data v = ok out -> only_restricts out v).
Proof.
  intros H.
  destruct (H reordered_package _ eq_refl [Key "codelists"; Index 0]
              ["conceptId"; "submissionValue"; "terms"] eq_refl)
    as (ks' & Hf & Hs).
  inversion Hf; subst ks'. discriminate Hs.
Qed.

(** ** Link-prune on one object *)

Lemma keep_self_spec (walk : json -> json) (links : dict) :
  keep_self walk links
  = match dict_get "self" links with
    | Some a => [("self", walk a)]
    | None => []
    end.
Proof.
  induction links as [|[k a] t IH]; simpl; [reflexivity|].
  destruct (String.eqb "self" k); [reflexivity | exact IH].
Qed.

Lemma pruned_entries_plain (b : bool) (d : dict) :
  (b = true -> ~ In "_links" (keys d)) ->
  map (fun kv => (fst kv, pruned_entry b (fst kv) (snd kv))) d
  = map (fun kv => (fst kv, remove_links_parent_refs (snd kv) (Some (fst kv)))) d.
Proof.
  intros H. apply map_ext_in. intros [k x] Hin. simpl. f_equal.
  apply pruned_entry_plain. destruct b; [|reflexivity]. simpl.
  destruct (String.eqb k "_links") eqn:E; [|reflexivity].
  apply String.eqb_eq in E. subst k. elim (H eq_refl).
  unfold keys. apply in_map_iff. exists ("_links", x). auto.
Qed.

Lemma dict_get_absent (k : string) (d : dict) :
  ~ In k (keys d) -> dict_get k d = None.
Proof.
  induction d as [|[k' v] t IH]; simpl; intros H; [reflexivity|].
  destruct (String.eqb k k') eqn:E.
  - apply String.eqb_eq in E. elim H. auto.
  - apply IH. intros Hin. apply H. auto.
Qed.

(** The source order (replace ['_links'], then walk the items) gives the
    same tree as [remove_links_parent_refs] on a dict with unique keys. *)
Lemma remove_links_parent_refs_two_phase (d : dict) (pk : option string) :
  NoDup (keys d) ->
  remove_links_parent_refs (JObject d) pk
  = JObject (map (fun kv => (fst kv, remove_links_parent_refs (snd kv) (Some (fst kv))))
               (links_replaced pk d)).
Proof.
  intros Hnd. rewrite remove_links_parent_refs_object. f_equal.
  unfold links_replaced. destruct (is_av pk); simpl andb.
  2: { apply pruned_entries_plain. discriminate. }
  induction d as [|[k v] t IH]; [reflexivity|].
  inversion Hnd as [|? ? Hk Ht]; subst.
  destruct (String.eqb "_links" k) eqn:E.
  - apply String.eqb_eq in E. subst k.
    change (dict_mem "_links" (("_links", v) :: t)) with true.
    change (dict_get "_links" (("_links", v) :: t)) with (Some v).
    cbv iota.
    simpl map at 1. rewrite (pruned_entries_plain true t (fun _ => Hk)).
    destruct v; try reflexivity.
    change (dict_set "_links" ?x (("_links", JObject fields) :: t))
      with (("_links", x) :: t).
    simpl map at 2. f_equal. f_equal.
    change (pruned_entry true "_links" (JObject fields))
      with (JObject (kept_self fields)).
    rewrite keep_self_spec.
    destruct (dict_get "self" fields) as [a|]; [destruct a|]; reflexivity.
  - assert (dict_mem "_links" ((k, v) :: t) = dict_mem "_links" t) as ->
      by (unfold dict_mem; simpl existsb; now rewrite E).
    assert (dict_get "_links" ((k, v) :: t) = dict_get "_links" t) as Hg
      by (simpl dict_get; now rewrite E).
    assert (forall x, dict_set "_links" x ((k, v) :: t)
                      = (k, v) :: dict_set "_links" x t) as Hs
      by (intros x; simpl dict_set; now rewrite E).
    rewrite Hg. simpl map at 1. rewrite (IH Ht).
    rewrite pruned_entry_plain by (simpl; now rewrite String.eqb_sym, E).
    destruct (dict_mem "_links" t); [|reflexivity].
    destruct (dict_get "_links" t) as [[| | | | | |links]|]; try reflexivity.
    rewrite Hs. reflexivity.
Qed.

Lemma pruned_links_under_av (d links : dict) :
  dict_get "_links" d = Some (JObject links) ->
  exists d',
    remove_links_parent_refs (JObject d) (Some AV) = JObject d' /\
    dict_get "_links" d' = Some (JObject (kept_self links)).
Proof.
  intros H. eexists. split; [apply remove_links_parent_refs_object|].
  rewrite (dict_get_map_values (pruned_entry (is_av (Some AV)))), H.
  reflexivity.
Qed.

Lemma walked_links_elsewhere (d links : dict) (pk : option string) :
  dict_get "_links" d = Some (JObject links) ->
  is_av pk = false ->
  exists d',
    remove_links_parent_refs (JObject d) pk = JObject d' /\
    dict_get "_links" d' = Some (remove_links_parent_refs (JObject links) (Some "_links")).
Proof.
  intros H Hpk. eexists. split; [apply remove_links_parent_refs_object|].
  rewrite (dict_get_map_values (pruned_entry (is_av pk))), H, Hpk.
  reflexivity.
Qed.

(** [C9] Link-prune on an object whose ['_links'] field is an object.
    Reached under the parent key ['analysisVariables'], the field becomes
    [{"self": A'}], where [A'] is the entry [A] under "self" after the walk
    has gone through it with parent key "self" ([A] itself when no
    ['analysisVariables'] key occurs in it), and the empty object when
    there is no "self" entry.  Reached under another parent key, the field
    keeps all its entries and is walked with parent key ['_links'] (it is
    the same object when no ['analysisVariables'] key occurs in it).  The
    items of a list are visited with the parent key of the list. *)
Theorem link_prune_links (d links : dict) :
  dict_get "_links" d = Some (JObject links) ->
  (exists d',
     remove_links_parent_refs (JObject d) (Some AV) = JObject d' /\
     dict_get "_links" d'
     = Some (JObject match dict_get "self" links with
                     | Some a => [("self", remove_links_parent_refs a (Some "self"))]
                     | None => []
                     end)) /\
  (forall a, dict_get "self" links = Some a -> has_key AV a = false ->
     exists d',
       remove_links_parent_refs (JObject d) (Some AV) = JObject d' /\
       dict_get "_links" d' = Some (JObject [("self", a)])) /\
  (forall pk, is_av pk = false ->
     exists d',
       remove_links_parent_refs (JObject d) pk = JObject d' /\
       dict_get "_links" d'
       = Some (remove_links_parent_refs (JObject links) (Some "_links"))) /\
  (forall pk, is_av pk = false -> has_key AV (JObject links) = false ->
     exists d',
       remove_links_parent_refs (JObject d) pk = JObject d' /\
       dict_get "_links" d' = Some (JObject links)) /\
  (forall l pk,
     remove_links_parent_refs (JList l) pk
     = JList (map (fun item => remove_links_parent_refs item pk) l)).
Proof.
  intros H. split; [|split; [|split; [|split]]].
  - destruct (pruned_links_under_av _ _ H) as (d' & Hd & Hget).
    exists d'. split; [exact Hd|]. rewrite Hget. now rewrite keep_self_spec.
  - intros a Ha Hfree.
    destruct (pruned_links_under_av _ _ H) as (d' & Hd & Hget).
    exists d'. split; [exact Hd|]. rewrite Hget, keep_self_spec, Ha.
    now rewrite (remove_links_parent_refs_no_av a Hfree (Some "self")).
  - intros pk Hpk. exact (walked_links_elsewhere _ _ _ H Hpk).
  - intros pk Hpk Hfree.
    destruct (walked_links_elsewhere _ _ _ H Hpk) as (d' & Hd & Hget).
    exists d'. split; [exact Hd|]. rewrite Hget.
    now rewrite (remove_links_parent_refs_no_av _ Hfree (Some "_links")).
  - reflexivity.
Qed.

Lemma link_prune_links_witness :
  (exists d',
     remove_links_parent_refs (JObject variable_entry) (Some AV) = JObject d' /\
     dict_get "_links" d'
     = Some (JObject [("self", JObject [("href", JStr "/mdr/adam/adamig-1-3/variables/STUDYID")])])) /\
  (exists d',
     remove_links_parent_refs (JObject variable_entry) (Some "datasets") = JObject d' /\
     dict_get "_links" d' = Some (JObject variable_links)).
Proof.
  destruct (link_prune_links variable_entry variable_links eq_refl)
    as (_ & Hself & _ & Hother & _).
  split.
  - apply Hself; reflexivity.
  - apply Hother; reflexivity.
Defined.

(** The kept "self" entry is not always the entry that was there: the
    walk goes on into it. *)
Lemma link_prune_walks_into_self :
  ~ (forall d links a,
       dict_get "_links" d = Some (JObject links) ->
       dict_get "self" links = Some a ->
       exists d',
         remove_links_parent_refs (JObject d) (Some AV) = JObject d' /\
         dict_get "_links" d' = Some (JObject [("self", a)])).
Proof.
  intros H.
  destruct (H [("_links", JObject [("self", nested_self); ("other", JInt 2)])]
              [("self", nested_self); ("other", JInt 2)] nested_self eq_refl eq_refl)
    as (d' & Hd & Hget).
  inversion Hd; subst d'. discriminate Hget.
Qed.

(** * Properties of the tools *)

Lemma fetch_spec (u : string) (k : option string) (t : Z) (w : World) (log : list Request) :
  fetch u k t w log = (outcome w (request u k t), (log ++ [request u k t])%list).
Proof.
  unfold fetch, bind, get, outcome, request. simpl.
  destruct (client_get w _) as [e|response]; [reflexivity|].
  unfold raise_for_status.
  destruct ((200 <=? status_code response) && (status_code response <=? 299))%Z;
    reflexivity.
Qed.

Lemma guarded_spec (u : string) (k : option string) (t : Z)
    (returns : json -> result string) (w : World) (log : list Request) :
  guarded u k t returns w log
  = (answered w (request u k t) returns, (log ++ [request u k t])%list).
Proof.
  unfold guarded, try_except, bind, answered. rewrite fetch_spec.
  destruct (outcome w (request u k t)) as [e|data]; [reflexivity|].
  unfold lift. destruct (returns data); reflexivity.
Qed.

Lemma with_api_key_spec (k : option string -> IO string) (w : World) :
  run (with_api_key k) w
  = if Py.truthy_opt (api_key_of w) then run (k (api_key_of w)) w
    else (ok no_api_key, []).
Proof.
  unfold run, with_api_key, bind, os_getenv, api_key_of. simpl.
  destruct (Py.truthy_opt (getenv w "CDISC_API_KEY")); reflexivity.
Qed.

Lemma invoke_plan (c : Call) (w : World) p :
  plan c = Some p -> run (invoke c) w = run_plan p w.
Proof.
  intros Hp.
  enough (match plan c with
          | Some p' => run (invoke c) w = run_plan p' w
          | None => True
          end) as H by (rewrite Hp in H; exact H).
  clear Hp p.
  destruct c; unfold plan; [exact I|..]; unfold invoke, run_plan;
    unfold get_sdtmig_class_info, get_sdtmig_dataset_info, get_sdtm_model_class_info,
      get_sdtm_model_dataset_info, get_sendig_class_info, get_sendig_dataset_info,
      get_cdashig_class_info, get_cdashig_domain_info, get_cdashig_scenarios_info,
      get_cdash_model_class_info, get_cdash_model_domain_info, get_adam_product_info,
      get_adam_datastructure_info, get_qrs_info, get_package_ct_info,
      get_package_ct_codelist_info, get_package_ct_codelist_term_info;
    rewrite with_api_key_spec;
    (destruct (Py.truthy_opt (api_key_of w)); [|reflexivity]);
    unfold request_data, run; cbv zeta;
    try match goal with
      | |- context [choose_url ?n ?x ?l ?f ?b] => destruct (choose_url n x l f b)
      | |- context [lookup ?k ?t] =>
          destruct (lookup k t) as [allowed|];
          [destruct (Py.str_in _ allowed)|]
      | |- context [Py.str_in ?x ct_package] => destruct (Py.str_in x ct_package)
      end;
    try reflexivity; cbv beta iota delta [negb]; rewrite guarded_spec; reflexivity.
Qed.

Lemma plan_product_list (c : Call) :
  plan c = None -> c = CDISC_Library_api_product_list.
Proof. destruct c; simpl; intros H; try discriminate H; reflexivity. Qed.

Lemma plan_defined (c : Call) :
  c <> CDISC_Library_api_product_list -> exists p, plan c = Some p.
Proof.
  intros Hc. destruct (plan c) as [p|] eqn:E; [eauto|].
  elim Hc. exact (plan_product_list c E).
Qed.

Lemma str_in_In (x : string) (xs : list string) :
  Py.str_in x xs = true <-> In x xs.
Proof.
  unfold Py.str_in. rewrite existsb_exists. split.
  - intros (y & Hin & E). apply String.eqb_eq in E. now subst.
  - intros Hin. exists x. split; [exact Hin | apply String.eqb_refl].
Qed.

Lemma str_in_not_In (x : string) (xs : list string) :
  ~ In x xs -> Py.str_in x xs = false.
Proof.
  intros H. destruct (Py.str_in x xs) eqn:E; [|reflexivity].
  elim H. now apply str_in_In.
Qed.

Lemma lookup_not_key (k : string) (table : list (string * list string)) :
  ~ In k (map fst table) -> lookup k table = None.
Proof.
  induction table as [|[k' vs] t IH]; simpl; intros H; [reflexivity|].
  destruct (String.eqb k k') eqn:E.
  - apply String.eqb_eq in E. elim H. auto.
  - apply IH. intros Hin. apply H. auto.
Qed.

Lemma lookup_key (k : string) (table : list (string * list string)) (vs : list string) :
  lookup k table = Some vs -> In k (map fst table).
Proof.
  induction table as [|[k' vs'] t IH]; simpl; [discriminate|].
  destruct (String.eqb k k') eqn:E.
  - apply String.eqb_eq in E. auto.
  - auto.
Qed.

(** ** The credential *)

(** Every tool but the product list stops at a missing (or empty)
    credential: it returns the fixed string and no request is made. *)
Lemma missing_api_key (c : Call) (w : World) :
  c <> CDISC_Library_api_product_list ->
  Py.truthy_opt (api_key_of w) = false ->
  run (invoke c) w = (ok no_api_key, []).
Proof.
  intros Hc Hkey. destruct (plan_defined c Hc) as [p Hp].
  rewrite (invoke_plan c w p Hp). unfold run_plan. now rewrite Hkey.
Qed.

(** The product list reads the credential and goes on whatever it is. *)
Lemma product_list_always_requests (w : World) :
  snd (run get_CDISC_Library_api_product_list w)
  = [request products_url (api_key_of w) 15].
Proof.
  unfold run, get_CDISC_Library_api_product_list, bind, os_getenv, try_except, get.
  simpl. fold (api_key_of w).
  destruct (client_get w _) as [e|response]; [reflexivity|].
  unfold raise_for_status.
  destruct ((200 <=? status_code response) && (status_code response <=? 299))%Z;
    simpl; [|reflexivity].
  unfold response_json, lift. destruct (json_body response); reflexivity.
Qed.

(** [C4] Called without a credential, [get_CDISC_Library_api_product_list]
    does not return the fixed configuration string: it hands a request with
    the header ['api-key': None] to the client and returns what its [try]
    block ends in. *)
Theorem product_list_without_api_key :
  run get_CDISC_Library_api_product_list no_credential
  = (ok "Unexpected Error: Header value must be str or bytes, not <class 'NoneType'>",
     [request products_url None 15]).
Proof. reflexivity. Qed.

(** ** Two-level allow-lists *)

Lemma run_plan_error (error : string) (w : World) :
  snd (run_plan (inl error) w) = [] /\
  (configured w -> fst (run_plan (inl error) w) = ok error).
Proof.
  unfold run_plan, configured.
  destruct (Py.truthy_opt (api_key_of w)); split; try reflexivity; discriminate.
Qed.

(** [C8] [get_adam_datastructure_info] and [get_qrs_info] make no request
    for a parent value that is no key of their table, nor for a child value
    outside the parent's list; with the credential configured they answer
    the first with the message that lists the table's keys and the second
    with the message that lists this parent's children. *)
Theorem two_level_allow_list (w : World) :
  (forall product datastructure,
     ~ In product (map fst ALLOWED_adam_datastructure_combinations) ->
     snd (run (get_adam_datastructure_info product datastructure) w) = [] /\
     (configured w ->
      fst (run (get_adam_datastructure_info product datastructure) w)
      = ok ("Error: Invalid product '" ++ product ++ "'. Valid products are: "
            ++ Py.join ", " (map fst ALLOWED_adam_datastructure_combinations)))) /\
  (forall product datastructure allowed,
     lookup product ALLOWED_adam_datastructure_combinations = Some allowed ->
     ~ In datastructure allowed ->
     snd (run (get_adam_datastructure_info product datastructure) w) = [] /\
     (configured w ->
      fst (run (get_adam_datastructure_info product datastructure) w)
      = ok ("Error: Invalid datastructure '" ++ datastructure ++ "' for product '"
            ++ product ++ "'. Valid datastructures are: " ++ Py.join ", " allowed))) /\
  (forall instrument version,
     ~ In instrument (map fst ALLOWED_qrs_combinations) ->
     snd (run (get_qrs_info instrument version) w) = [] /\
     (configured w ->
      fst (run (get_qrs_info instrument version) w)
      = ok ("Error: Invalid instrument '" ++ instrument ++ "'. Valid instruments are: "
            ++ Py.join ", " (map fst ALLOWED_qrs_combinations)))) /\
  (forall instrument version allowed,
     lookup instrument ALLOWED_qrs_combinations = Some allowed ->
     ~ In version allowed ->
     snd (run (get_qrs_info instrument version) w) = [] /\
     (configured w ->
      fst (run (get_qrs_info instrument version) w)
      = ok ("Error: Invalid version '" ++ version ++ "' for instrument '"
            ++ instrument ++ "'. Valid versions are: " ++ Py.join ", " allowed))).
Proof.
  split; [|split; [|split]].
  - intros product datastructure Hp.
    change (get_adam_datastructure_info product datastructure) with (invoke (adam_datastructure_info product datastructure)).
    rewrite (invoke_plan (adam_datastructure_info product datastructure) w _ eq_refl).
    rewrite (lookup_not_key _ _ Hp). apply run_plan_error.
  - intros product datastructure allowed Hp Hd.
    change (get_adam_datastructure_info product datastructure) with (invoke (adam_datastructure_info product datastructure)).
    rewrite (invoke_plan (adam_datastructure_info product datastructure) w _ eq_refl).
    rewrite Hp, (str_in_not_In _ _ Hd). apply run_plan_error.
  - intros instrument version Hi.
    change (get_qrs_info instrument version) with (invoke (qrs_info instrument version)).
    rewrite (invoke_plan (qrs_info instrument version) w _ eq_refl).
    rewrite (lookup_not_key _ _ Hi). apply run_plan_error.
  - intros instrument version allowed Hi Hv.
    change (get_qrs_info instrument version) with (invoke (qrs_info instrument version)).
    rewrite (invoke_plan (qrs_info instrument version) w _ eq_refl).
    rewrite Hi, (str_in_not_In _ _ Hv). apply run_plan_error.
Qed.

Lemma not_In_by_str_in (x : string) (xs : list string) :
  Py.str_in x xs = false -> ~ In x xs.
Proof.
  intros H Hin. apply str_in_In in Hin. congruence.
Qed.

Lemma two_level_allow_list_witness :
  let w := answering (ok (response_200 JNull)) in
  run (get_adam_datastructure_info "adamig-2-0" "ADSL") w
  = (ok ("Error: Invalid product 'adamig-2-0'. Valid products are: adam-nca-1-0, "
         ++ "adamig-1-0, adamig-1-1, adam-occds-1-0, adam-occds-1-1, adam-adae-1-0, "
         ++ "adam-poppk-1-0, adam-tte-1-0, adamig-1-2, adam-md-1-0, adamig-1-3"), []) /\
  run (get_adam_datastructure_info "adamig-1-0" "TTE") w
  = (ok "Error: Invalid datastructure 'TTE' for product 'adamig-1-0'. Valid datastructures are: ADSL, BDS",
     []) /\
  run (get_qrs_info "HAMD1" "2-1") w
  = (ok ("Error: Invalid instrument 'HAMD1'. Valid instruments are: AIMS01, APCH1, "
         ++ "ATLAS1, CGI02, HAMA1, KFSS1, KPSS1, PGI01, SIXMW1"), []) /\
  run (get_qrs_info "HAMA1" "1-0") w
  = (ok "Error: Invalid version '1-0' for instrument 'HAMA1'. Valid versions are: 2-1", []).
Proof.
  intros w.
  destruct (two_level_allow_list w) as (H1 & H2 & H3 & H4).
  assert (forall (x : result string * list Request) s,
            snd x = [] /\ (configured w -> fst x = ok s) -> x = (ok s, [])) as pack.
  { intros [a l] s [Hl Hs]. simpl in *. now rewrite Hl, (Hs eq_refl). }
  split; [|split; [|split]]; apply pack.
  - apply (H1 "adamig-2-0" "ADSL"). apply not_In_by_str_in. reflexivity.
  - apply (H2 "adamig-1-0" "TTE" ["ADSL"; "BDS"] eq_refl).
    apply not_In_by_str_in. reflexivity.
  - apply (H3 "HAMD1" "2-1"). apply not_In_by_str_in. reflexivity.
  - apply (H4 "HAMA1" "1-0" ["2-1"] eq_refl). apply not_In_by_str_in. reflexivity.
Defined.

(** ** Flat allow-lists *)

(** [C2] A non-empty class, dataset or domain identifier outside the list
    its tool consults, and a package outside [ct_package], lead to no
    request; with the credential configured the tool answers with its
    error string.  Nothing else is looked up in a list: an empty identifier
    counts as omitted, and with the credential configured the version of
    these tools (in the listing request and in the request for a listed
    identifier), the scenario, the product of [get_adam_product_info], the
    codelist and the term go into the path of the one request as they were
    supplied. *)
Theorem flat_allow_list (w : World) :
  (forall c name value allowed,
     checked_identifier c = Some (name, value, allowed) ->
     value <> EmptyString ->
     ~ In value allowed ->
     snd (run (invoke c) w) = [] /\
     (configured w ->
      fst (run (invoke c) w)
      = ok ("Error: " ++ name ++ " is invalid, got '" ++ value ++ "'"))) /\
  (forall c package,
     checked_package c = Some package ->
     ~ In package ct_package ->
     snd (run (invoke c) w) = [] /\
     (configured w -> fst (run (invoke c) w) = ok (invalid_package package))) /\
  (forall c name allowed,
     checked_identifier c = Some (name, EmptyString, allowed) ->
     run (invoke c) w = run (invoke (without_identifier c)) w) /\
  (forall version,
     run (invoke (cdashig_scenarios_info version (Some EmptyString))) w
     = run (invoke (cdashig_scenarios_info version None)) w) /\
  (configured w ->
   (forall c base,
      listing_url c = Some base ->
      snd (run (invoke (without_identifier c)) w) = [request base (api_key_of w) 15]) /\
   (forall c name value allowed base,
      checked_identifier c = Some (name, value, allowed) ->
      listing_url c = Some base ->
      value <> EmptyString ->
      In value allowed ->
      snd (run (invoke c) w)
      = [request (base ++ "/" ++ value ++ detail_tail c) (api_key_of w) 15]) /\
   (forall version scenario,
      scenario <> EmptyString ->
      snd (run (invoke (cdashig_scenarios_info version (Some scenario))) w)
      = [request ((mdr ++ "cdashig/" ++ version ++ "/scenarios") ++ "/" ++ scenario)
           (api_key_of w) 15]) /\
   (forall product,
      snd (run (invoke (adam_product_info product)) w)
      = [request (mdr ++ "adam/" ++ product) (api_key_of w) 15]) /\
   (forall package codelist term,
      In package ct_package ->
      snd (run (invoke (package_ct_codelist_info package codelist)) w)
      = [request (mdr ++ "ct/packages/" ++ package ++ "/codelists/" ++ codelist)
           (api_key_of w) 30] /\
      snd (run (invoke (package_ct_codelist_term_info package codelist term)) w)
      = [request (mdr ++ "ct/packages/" ++ package ++ "/codelists/" ++ codelist
                  ++ "/terms/" ++ term) (api_key_of w) 30])).
Proof.
  split; [|split; [|split; [|split]]].
  - intros c name value allowed Hc Hne Hout.
    assert (Py.truthy value = true) as Ht by (destruct value; [contradiction|reflexivity]).
    apply str_in_not_In in Hout.
    destruct c; simpl in Hc; try discriminate Hc;
      try match type of Hc with
        | match ?x with Some _ => _ | None => _ end = _ =>
            destruct x; [|discriminate Hc]
        end;
      injection Hc as <- <- <-;
      match goal with
      | |- snd (run (invoke ?c) w) = _ /\ _ => rewrite (invoke_plan c w _ eq_refl)
      end;
      unfold choose_url; rewrite Ht, Hout; apply run_plan_error.
  - intros c package Hc Hout. apply str_in_not_In in Hout.
    destruct c; simpl in Hc; try discriminate Hc; injection Hc as <-;
      match goal with
      | |- snd (run (invoke ?c) w) = _ /\ _ => rewrite (invoke_plan c w _ eq_refl)
      end;
      rewrite Hout; apply run_plan_error.
  - intros c name allowed Hc.
    destruct c; simpl in Hc; try discriminate Hc;
      try match type of Hc with
        | match ?x with Some _ => _ | None => _ end = _ =>
            destruct x; [|discriminate Hc]
        end;
      apply some_inj in Hc; inversion Hc; subst; reflexivity.
  - intros version. reflexivity.
  - intros Hkey. unfold configured in Hkey.
    split; [|split; [|split; [|split]]].
    + intros c base Hl.
      destruct c; unfold listing_url in Hl; try discriminate Hl;
        apply some_inj in Hl; subst base; cbn [without_identifier];
        match goal with
        | |- snd (run (invoke ?c0) w) = _ => rewrite (invoke_plan c0 w _ eq_refl)
        end;
        unfold run_plan, choose_url; rewrite Hkey; reflexivity.
    + intros c name value allowed base Hc Hl Hne Hin.
      assert (Py.truthy value = true) as Ht
        by (destruct value; [contradiction|reflexivity]).
      apply str_in_In in Hin.
      destruct c; simpl in Hc; try discriminate Hc;
        try match type of Hc with
          | match ?x with Some _ => _ | None => _ end = _ =>
              destruct x; [|discriminate Hc]
          end;
        apply some_inj in Hc; inversion Hc; subst;
        unfold listing_url in Hl; apply some_inj in Hl; subst base;
        match goal with
        | |- snd (run (invoke ?c0) w) = _ => rewrite (invoke_plan c0 w _ eq_refl)
        end;
        unfold run_plan, choose_url; rewrite Hkey, Ht, Hin; cbv iota;
        cbn [detail_tail snd]; rewrite ?append_empty_r; reflexivity.
    + intros version scenario Hne.
      assert (Py.truthy scenario = true) as Ht
        by (destruct scenario; [contradiction|reflexivity]).
      rewrite (invoke_plan (cdashig_scenarios_info version (Some scenario)) w _ eq_refl).
      unfold run_plan. rewrite Hkey, Ht. reflexivity.
    + intros product.
      rewrite (invoke_plan (adam_product_info product) w _ eq_refl).
      unfold run_plan. rewrite Hkey. reflexivity.
    + intros package codelist term Hin. apply str_in_In in Hin.
      rewrite (invoke_plan (package_ct_codelist_info package codelist) w _ eq_refl),
        (invoke_plan (package_ct_codelist_term_info package codelist term) w _ eq_refl).
      unfold run_plan. rewrite Hkey, Hin. split; reflexivity.
Qed.

Lemma flat_allow_list_witness :
  let w := answering (ok (response_200 JNull)) in
  run (invoke (sdtmig_class_info "3-4" (Some "Observations"))) w
  = (ok "Error: className is invalid, got 'Observations'", []) /\
  run (invoke (package_ct_codelist_info "sdtmct-2030-01-01" "C66742")) w
  = (ok "Error: Package 'sdtmct-2030-01-01' is invalid or not found in known packages.", []) /\
  run (invoke (sdtmig_class_info "3-4" (Some EmptyString))) w
  = run (invoke (sdtmig_class_info "3-4" None)) w /\
  snd (run (invoke (sdtmig_class_info "9-9" None)) w)
  = [request "https://api.library.cdisc.org/api/mdr/sdtmig/9-9/classes" (Some "secret") 15] /\
  snd (run (invoke (sdtmig_class_info "9-9" (Some "Events"))) w)
  = [request "https://api.library.cdisc.org/api/mdr/sdtmig/9-9/classes/Events/datasets?expand=false"
       (Some "secret") 15] /\
  snd (run (invoke (cdashig_scenarios_info "2-1" (Some "no such scenario"))) w)
  = [request "https://api.library.cdisc.org/api/mdr/cdashig/2-1/scenarios/no such scenario"
       (Some "secret") 15] /\
  snd (run (invoke (package_ct_codelist_term_info "sdtmct-2025-09-26" "nocodelist" "noterm")) w)
  = [request ("https://api.library.cdisc.org/api/mdr/ct/packages/sdtmct-2025-09-26"
              ++ "/codelists/nocodelist/terms/noterm") (Some "secret") 30].
Proof.
  intros w. destruct (flat_allow_list w) as (H1 & H2 & H3 & _ & H5).
  destruct (H5 eq_refl) as (Hlisting & Hdetail & Hscenario & _ & Hpackage).
  assert (forall (x : result string * list Request) s,
            snd x = [] /\ (configured w -> fst x = ok s) -> x = (ok s, [])) as pack.
  { intros [a l] s [Hl Hs]. simpl in *. now rewrite Hl, (Hs eq_refl). }
  split; [|split; [|split; [|split; [|split; [|split]]]]].
  - apply pack.
    apply (H1 (sdtmig_class_info "3-4" (Some "Observations"))
              "className" "Observations" sdtmig_classes eq_refl).
    + discriminate.
    + apply not_In_by_str_in. reflexivity.
  - apply pack.
    apply (H2 (package_ct_codelist_info "sdtmct-2030-01-01" "C66742")
              "sdtmct-2030-01-01" eq_refl).
    apply not_In_by_str_in. reflexivity.
  - exact (H3 (sdtmig_class_info "3-4" (Some EmptyString))
             "className" sdtmig_classes eq_refl).
  - exact (Hlisting (sdtmig_class_info "9-9" None) _ eq_refl).
  - apply (Hdetail (sdtmig_class_info "9-9" (Some "Events"))
             "className" "Events" sdtmig_classes _ eq_refl eq_refl).
    + discriminate.
    + apply str_in_In. reflexivity.
  - apply (Hscenario "2-1" "no such scenario"). discriminate.
  - apply (Hpackage "sdtmct-2025-09-26" "nocodelist" "noterm").
    apply str_in_In. reflexivity.
Defined.

(** A version outside the enumerated ones goes into the path and the
    request is made. *)
Lemma version_is_not_checked :
  ~ (forall w version className,
       ~ In version sdtmig_versions ->
       snd (run (get_sdtmig_class_info version className) w) = []).
Proof.
  intros H.
  assert (~ In "9-9" sdtmig_versions) as Hout by (apply not_In_by_str_in; reflexivity).
  specialize (H (answering (ok (response_200 JNull))) "9-9" None Hout).
  discriminate H.
Qed.

(** ** Failures of the request *)

Lemma product_list_spec (w : World) :
  run get_CDISC_Library_api_product_list w
  = (match outcome w (request products_url (api_key_of w) 15) with
     | inl (TimeoutException _) =>
         ok "Error: The request to CDISC Library timed out. Please try again later."
     | inl (HTTPStatusError _ code _) =>
         ok ("API Error: CDISC Library returned status " ++ Py.str_of_int code ++ ".")
     | inl (RequestError m) =>
         ok ("Network Error: Unable to connect to CDISC Library. Details: " ++ m)
     | inl (PyException m) => ok ("Unexpected Error: " ++ m)
     | inr data => ok (Dumps.dumps Dumps.unicode data)
     end, [request products_url (api_key_of w) 15]).
Proof.
  unfold run, get_CDISC_Library_api_product_list, bind, os_getenv, try_except, get,
    outcome, request, products_url.
  simpl. fold (api_key_of w).
  destruct (client_get w _) as [e|response]; [destruct e; reflexivity|].
  unfold raise_for_status.
  destruct ((200 <=? status_code response) && (status_code response <=? 299))%Z;
    simpl; [|reflexivity].
  unfold response_json, lift.
  destruct (json_body response) as [e|data]; [destruct e|]; reflexivity.
Qed.

Lemma requested_plan (c : Call) (w : World) (r : Request) p :
  plan c = Some p ->
  snd (run (invoke c) w) = [r] ->
  exists u t returns,
    p = inr (u, t, returns) /\ r = request u (api_key_of w) t /\
    fst (run (invoke c) w) = answered w r returns.
Proof.
  intros Hp Hlog. rewrite (invoke_plan c w p Hp) in *. unfold run_plan in *.
  destruct (Py.truthy_opt (api_key_of w)); [|discriminate Hlog].
  destruct p as [error|[[u t] returns]]; [discriminate Hlog|].
  simpl in Hlog. inversion Hlog; subst r.
  exists u, t, returns. auto.
Qed.

Lemma contains_intro (pre p post : string) : Py.contains p (pre ++ p ++ post).
Proof. now exists pre, post. Qed.

(** [C7] What a failed request turns into.  The product list tells four
    cases apart: a timeout, a status outside 2xx, another request error and
    anything else.  Every other tool has three strings: "API Error: HTTP"
    with the status and the body, "Network Error: " for a timeout as for any
    other request error, "Execution Error: " for anything else.  In every
    tool a 404 gives a string that starts with "API Error" and contains
    "404". *)
Theorem failure_strings :
  (forall w e,
     outcome w (request products_url (api_key_of w) 15) = inl e ->
     fst (run get_CDISC_Library_api_product_list w)
     = ok match e with
          | TimeoutException _ =>
              "Error: The request to CDISC Library timed out. Please try again later."
          | HTTPStatusError _ code _ =>
              "API Error: CDISC Library returned status " ++ Py.str_of_int code ++ "."
          | RequestError m =>
              "Network Error: Unable to connect to CDISC Library. Details: " ++ m
          | PyException m => "Unexpected Error: " ++ m
          end) /\
  (forall c w r e,
     c <> CDISC_Library_api_product_list ->
     snd (run (invoke c) w) = [r] ->
     outcome w r = inl e ->
     fst (run (invoke c) w)
     = ok match e with
          | HTTPStatusError _ code body =>
              "API Error: HTTP " ++ Py.str_of_int code ++ " - " ++ body
          | TimeoutException m | RequestError m => "Network Error: " ++ m
          | PyException m => "Execution Error: " ++ m
          end) /\
  (forall c w r response,
     snd (run (invoke c) w) = [r] ->
     client_get w r = ok response ->
     status_code response = 404%Z ->
     exists s, fst (run (invoke c) w) = ok s /\
               Py.startswith "API Error" s = true /\ Py.contains "404" s).
Proof.
  split; [|split].
  - intros w e H. rewrite product_list_spec. simpl. rewrite H.
    destruct e; reflexivity.
  - intros c w r e Hc Hlog H.
    destruct (plan_defined c Hc) as [p Hp].
    destruct (requested_plan c w r p Hp Hlog) as (u & t & returns & _ & _ & ->).
    unfold answered. rewrite H. destruct e; reflexivity.
  - intros c w r response Hlog Hget Hcode.
    assert (outcome w r = inl (HTTPStatusError (status_message response) 404 (text response)))
      as Hout
      by (unfold outcome; rewrite Hget; unfold ok; cbv beta iota; rewrite Hcode;
          reflexivity).
    destruct (plan c) as [p|] eqn:Hp.
    + destruct (requested_plan c w r p Hp Hlog) as (u & t & returns & _ & _ & ->).
      unfold answered. rewrite Hout. eexists. split; [reflexivity|]. split.
      * reflexivity.
      * exact (contains_intro "API Error: HTTP " "404" (" - " ++ text response)).
    + apply plan_product_list in Hp. subst c. simpl invoke in *.
      rewrite product_list_spec in *. simpl in Hlog. inversion Hlog; subst r.
      simpl. rewrite Hout. eexists. split; [reflexivity|]. split.
      * reflexivity.
      * exact (contains_intro "API Error: CDISC Library returned status " "404" ".").
Qed.

Lemma failure_strings_witness :
  fst (run get_CDISC_Library_api_product_list
         (answering (raise (TimeoutException "timed out"))))
  = ok "Error: The request to CDISC Library timed out. Please try again later." /\
  fst (run (invoke (qrs_info "HAMA1" "2-1"))
         (answering (raise (TimeoutException "timed out"))))
  = ok "Network Error: timed out" /\
  exists s, fst (run (invoke (qrs_info "HAMA1" "2-1")) (answering (ok response_404)))
            = ok s /\
            Py.startswith "API Error" s = true /\ Py.contains "404" s.
Proof.
  destruct failure_strings as (H1 & H2 & H3). split; [|split].
  - exact (H1 (answering (raise (TimeoutException "timed out"))) _ eq_refl).
  - refine (H2 (qrs_info "HAMA1" "2-1") (answering (raise (TimeoutException "timed out")))
              _ (TimeoutException "timed out") _ eq_refl eq_refl).
    discriminate.
  - exact (H3 (qrs_info "HAMA1" "2-1") (answering (ok response_404))
              _ response_404 eq_refl eq_refl eq_refl).
Defined.

(** Outside the product list a timeout and another request error with the
    same message give the same string: nothing tells them apart. *)
Lemma timeout_is_reported_as_network_error :
  ~ (forall c m m',
       fst (run (invoke c) (answering (raise (TimeoutException m))))
       <> fst (run (invoke c) (answering (raise (RequestError m'))))).
Proof.
  intros H.
  apply (H (sdtmig_class_info "3-4" None) "timed out" "timed out").
  reflexivity.
Qed.

(** ** Oversized responses *)

Lemma oversized_object_long :
  (limit <? Py.len (json_dumps oversized_object))%nat = true /\
  (limit <? Py.len (Dumps.dumps Dumps.compact oversized_object))%nat = true.
Proof. split; vm_compute; reflexivity. Qed.

(** [C1] An upstream answer that is a JSON object with a serialization of
    more than 130000 characters does not come back as its first 130000
    characters and the marker from [get_sdtmig_class_info]: the tool slices
    the decoded object, not the string, the slice raises, and the tool
    returns the text of the exception. *)
Theorem data_slice_on_oversized_object :
  run (get_sdtmig_class_info "3-4" None) (answering (ok (response_200 oversized_object)))
  = (ok "Execution Error: unhashable type: 'slice'",
     [request "https://api.library.cdisc.org/api/mdr/sdtmig/3-4/classes" (Some "secret") 15]).
Proof. vm_compute. reflexivity. Qed.

(** The same for every tool that returns the decoded data as it is. *)
Lemma return_data_on_long_object (d : dict) :
  (limit < Py.len (json_dumps (JObject d)))%nat ->
  return_data (JObject d) = raise (PyException "unhashable type: 'slice'").
Proof.
  intros H. unfold return_data. apply Nat.ltb_lt in H. rewrite H. reflexivity.
Qed.

Lemma len_app (a b : string) : Py.len (a ++ b) = (Py.len a + Py.len b)%nat.
Proof.
  unfold Py.len. induction a as [|c a IH]; simpl; [reflexivity | now rewrite IH].
Qed.

Lemma len_take (n : nat) (s : string) : Py.len (Py.take n s) = Nat.min n (Py.len s).
Proof.
  unfold Py.len. revert s. induction n as [|n IH]; intros [|c s]; simpl; auto.
Qed.

Lemma cut_length (marker s : string) :
  (Py.len (cut marker s) <= limit + Py.len marker)%nat.
Proof.
  unfold cut. destruct (limit <? Py.len s)%nat eqn:E.
  - rewrite len_app, len_take. lia.
  - apply Nat.ltb_ge in E. lia.
Qed.

Lemma cut_prefix (marker s : string) :
  (limit < Py.len s)%nat ->
  cut marker s = Py.take limit s ++ marker /\ Py.len (Py.take limit s) = limit.
Proof.
  intros H. unfold cut. rewrite (proj2 (Nat.ltb_lt _ _) H), len_take.
  split; [reflexivity | lia].
Qed.

Lemma cut_short (marker s : string) :
  (Py.len s <= limit)%nat -> cut marker s = s.
Proof.
  intros H. unfold cut. now rewrite (proj2 (Nat.ltb_ge _ _) H).
Qed.

Ltac plan_cases H :=
  repeat match type of H with
    | context [choose_url ?n ?x ?l ?f ?b] => destruct (choose_url n x l f b)
    | context [lookup ?k ?t] => destruct (lookup k t)
    | context [Py.str_in ?x ?l] => destruct (Py.str_in x l)
    end;
  try discriminate H; inversion H; subst; clear H.

Lemma decoded_answer (c : Call) (w : World) (r : Request) (data : json) :
  snd (run (invoke c) w) = [r] ->
  outcome w r = ok data ->
  returned_for c data (fst (run (invoke c) w)).
Proof.
  intros Hlog Hout. unfold returned_for.
  destruct c;
    try (match type of Hlog with
         | snd (run (invoke ?c') w) = _ =>
             destruct (requested_plan c' w r _ eq_refl Hlog)
               as (u & t & returns & Hp & _ & ->)
         end;
         unfold answered; rewrite Hout; plan_cases Hp).
  - simpl invoke in *. rewrite product_list_spec in *. simpl in Hlog.
    inversion Hlog; subst r. simpl. now rewrite Hout.
  - intros Hle. cbv beta iota delta [ok return_data].
    now rewrite (proj2 (Nat.ltb_ge _ _) Hle).
  - intros Hle. cbv beta iota delta [ok return_data].
    now rewrite (proj2 (Nat.ltb_ge _ _) Hle).
  - intros Hle. cbv beta iota delta [ok return_data].
    now rewrite (proj2 (Nat.ltb_ge _ _) Hle).
  - intros Hle. cbv beta iota delta [ok return_data].
    now rewrite (proj2 (Nat.ltb_ge _ _) Hle).
  - intros Hle. cbv beta iota delta [ok return_data].
    now rewrite (proj2 (Nat.ltb_ge _ _) Hle).
  - intros Hle. cbv beta iota delta [ok return_data].
    now rewrite (proj2 (Nat.ltb_ge _ _) Hle).
  - intros Hle. cbv beta iota delta [ok return_data].
    now rewrite (proj2 (Nat.ltb_ge _ _) Hle).
  - intros Hle. cbv beta iota delta [ok return_data].
    now rewrite (proj2 (Nat.ltb_ge _ _) Hle).
  - intros Hle. cbv beta iota delta [ok return_data].
    now rewrite (proj2 (Nat.ltb_ge _ _) Hle).
  - intros Hle. cbv beta iota delta [ok return_data].
    now rewrite (proj2 (Nat.ltb_ge _ _) Hle).
  - intros Hle. cbv beta iota delta [ok return_data].
    now rewrite (proj2 (Nat.ltb_ge _ _) Hle).
  - reflexivity.
  - reflexivity.
  - reflexivity.
  - intros final Hfinal. cbv beta iota delta [ok]. rewrite Hfinal. reflexivity.
  - reflexivity.
  - reflexivity.
Qed.

(** [C6] The length cap, the product list aside (it has no length test).
    For a decoded answer the tool returns what [returned_for] says:
    [get_adam_product_info], [get_adam_datastructure_info] and
    [get_qrs_info] cut the serialization of the shaped data at 130000
    characters and append
    "...The data is too long, please shorten the request."; the three
    package tools cut the compact serialization at 130000 characters and
    append a newline and "... [Truncated]"; the tools that return the
    decoded data as it is return the serialization when it has at most
    130000 characters.  A cut string has at most 130000 characters plus its
    marker.  The cap is for decoded answers only: when the request fails the
    error string is returned whole, so after a status outside 2xx the answer
    is longer than the body of the response, whatever its length. *)
Theorem cap_and_markers (c : Call) (w : World) (r : Request) :
  c <> CDISC_Library_api_product_list ->
  snd (run (invoke c) w) = [r] ->
  (forall data,
     outcome w r = ok data ->
     returned_for c data (fst (run (invoke c) w))) /\
  (forall marker s, (Py.len (cut marker s) <= limit + Py.len marker)%nat) /\
  (forall e,
     outcome w r = inl e ->
     fst (run (invoke c) w)
     = ok match e with
          | HTTPStatusError _ code body =>
              "API Error: HTTP " ++ Py.str_of_int code ++ " - " ++ body
          | TimeoutException m | RequestError m => "Network Error: " ++ m
          | PyException m => "Execution Error: " ++ m
          end) /\
  (forall message code body,
     outcome w r = inl (HTTPStatusError message code body) ->
     exists s, fst (run (invoke c) w) = ok s /\ (Py.len body < Py.len s)%nat).
Proof.
  intros Hc Hlog.
  assert (forall e,
            outcome w r = inl e ->
            fst (run (invoke c) w)
            = ok match e with
                 | HTTPStatusError _ code body =>
                     "API Error: HTTP " ++ Py.str_of_int code ++ " - " ++ body
                 | TimeoutException m | RequestError m => "Network Error: " ++ m
                 | PyException m => "Execution Error: " ++ m
                 end) as Herr.
  { intros e H.
    destruct (plan_defined c Hc) as [p Hp].
    destruct (requested_plan c w r p Hp Hlog) as (u & t & returns & _ & _ & ->).
    unfold answered. rewrite H. destruct e; reflexivity. }
  split; [|split; [|split]].
  - intros data Hout. exact (decoded_answer c w r data Hlog Hout).
  - exact cut_length.
  - exact Herr.
  - intros message code body H. eexists. split; [exact (Herr _ H)|].
    rewrite !len_app. unfold Py.len. simpl String.length. lia.
Qed.

Lemma cap_and_markers_witness :
  fst (run (invoke (qrs_info "HAMA1" "2-1"))
         (answering (ok (response_200 oversized_object))))
  = ok (cut "...The data is too long, please shorten the request."
          (json_dumps oversized_object)) /\
  fst (run (invoke (package_ct_codelist_info "sdtmct-2025-09-26" "C66742"))
         (answering (ok (response_200 small_codelist))))
  = ok (cut truncated (Dumps.dumps Dumps.compact small_codelist)) /\
  fst (run (invoke (qrs_info "HAMA1" "2-1")) (answering (ok response_404)))
  = ok "API Error: HTTP 404 - Not Found".
Proof.
  split; [|split].
  - destruct (cap_and_markers (qrs_info "HAMA1" "2-1")
                (answering (ok (response_200 oversized_object)))
                (request (mdr ++ "qrs/instruments/HAMA1/versions/2-1") (Some "secret") 15))
      as (Hdata & _); [discriminate | reflexivity |].
    exact (Hdata oversized_object eq_refl).
  - destruct (cap_and_markers (package_ct_codelist_info "sdtmct-2025-09-26" "C66742")
                (answering (ok (response_200 small_codelist)))
                (request (mdr ++ "ct/packages/sdtmct-2025-09-26/codelists/C66742")
                   (Some "secret") 30))
      as (Hdata & _); [discriminate | reflexivity |].
    exact (Hdata small_codelist eq_refl).
  - destruct (cap_and_markers (qrs_info "HAMA1" "2-1")
                (answering (ok response_404))
                (request (mdr ++ "qrs/instruments/HAMA1/versions/2-1") (Some "secret") 15))
      as (_ & _ & Herr & _); [discriminate | reflexivity |].
    exact (Herr (HTTPStatusError "Client error" 404 "Not Found") eq_refl).
Defined.

Lemma app_inv_len (a a' b b' : string) :
  Py.len a = Py.len a' -> a ++ b = a' ++ b' -> b = b'.
Proof.
  unfold Py.len. revert a'. induction a as [|c a IH]; intros [|c' a']; simpl;
    intros Hlen H; try discriminate Hlen.
  - exact H.
  - inversion H. inversion Hlen. eauto.
Qed.

(** Two tools, the same oversized answer, two different markers: no single
    marker text follows the cut in every tool. *)
Lemma markers_differ :
  ~ (exists marker,
       forall c w r data s,
         snd (run (invoke c) w) = [r] ->
         outcome w r = ok data ->
         fst (run (invoke c) w) = ok s ->
         (limit < Py.len s)%nat ->
         exists pre, Py.len pre = limit /\ s = pre ++ marker).
Proof.
  intros [marker H].
  set (w := answering (ok (response_200 oversized_object))).
  destruct oversized_object_long as [L1 L2].
  apply Nat.ltb_lt in L1, L2.
  assert (marker = "...The data is too long, please shorten the request.") as M1.
  { pose proof (decoded_answer (qrs_info "HAMA1" "2-1") w _ oversized_object
                  eq_refl eq_refl) as R.
    unfold returned_for in R.
    destruct (cut_prefix "...The data is too long, please shorten the request." _ L1)
      as [Hc Hl].
    rewrite Hc in R.
    destruct (H (qrs_info "HAMA1" "2-1") w
                (request (mdr ++ "qrs/instruments/HAMA1/versions/2-1") (Some "secret") 15)
                oversized_object _ eq_refl eq_refl R) as (pre & Hpre & Heq).
    - rewrite len_app, Hl. unfold Py.len. simpl String.length. lia.
    - symmetry. apply (app_inv_len _ _ _ _ (eq_trans Hl (eq_sym Hpre)) Heq). }
  assert (marker = truncated) as M2.
  { pose proof (decoded_answer (package_ct_codelist_info "sdtmct-2025-09-26" "C66742")
                  w _ oversized_object eq_refl eq_refl) as R.
    unfold returned_for in R.
    destruct (cut_prefix truncated _ L2) as [Hc Hl].
    rewrite Hc in R.
    destruct (H (package_ct_codelist_info "sdtmct-2025-09-26" "C66742") w
                (request (mdr ++ "ct/packages/sdtmct-2025-09-26/codelists/C66742")
                   (Some "secret") 30)
                oversized_object _ eq_refl eq_refl R) as (pre & Hpre & Heq).
    - rewrite len_app, Hl. unfold Py.len, truncated. simpl String.length. lia.
    - symmetry. apply (app_inv_len _ _ _ _ (eq_trans Hl (eq_sym Hpre)) Heq). }
  rewrite M1 in M2. discriminate M2.
Qed.

(** * Further properties of the tools *)




Lemma choose_url_cases (name : string) (x : option string) (allowed : list string)
    (detail : string -> string) (base_url u : string) :
  choose_url name x allowed detail base_url = inr u ->
  u = base_url \/ exists v, x = Some v /\ In v allowed /\ u = detail v.
Proof.
  unfold choose_url. destruct x as [v|]; [|intros H; inversion H; auto].
  destruct (Py.truthy v); [|intros H; inversion H; auto].
  destruct (Py.str_in v allowed) eqn:E; [|discriminate].
  intros H. inversion H. right. exists v. repeat split. now apply str_in_In.
Qed.


Lemma planned_request (c : Call) (u : string) (t : Z) (returns : json -> result string) :
  plan c = Some (inr (u, t, returns)) ->
  Py.startswith mdr u = true /\ t = timeout_of c.
Proof.
  destruct c; unfold plan; cbv zeta; intros H; try discriminate H;
    apply some_inj in H;
    repeat match type of H with
      | context [choose_url ?n ?x ?l ?f ?b] =>
          let E := fresh "E" in
          destruct (choose_url n x l f b) eqn:E;
          [|apply choose_url_cases in E; destruct E as [->|(v & _ & _ & ->)]]
      | context [lookup ?k ?tb] => destruct (lookup k tb)
      | context [Py.str_in ?x ?l] => destruct (Py.str_in x l)
      end;
    try discriminate H; inversion H; subst; split; try reflexivity.
  destruct scenario as [x|]; [destruct (Py.truthy x)|]; reflexivity.
Qed.

(** [X2] A call makes at most one request, and every request it makes goes
    to a path under https://api.library.cdisc.org/api/mdr/ with the three
    headers of [hdr] (the credential as read from the environment in
    'api-key') and a timeout of 30 seconds for the three package tools, 15
    seconds for every other tool. *)
Theorem requests_made (c : Call) (w : World) (r : Request) :
  In r (snd (run (invoke c) w)) ->
  snd (run (invoke c) w) = [r] /\
  headers r = hdr (api_key_of w) /\
  Py.startswith mdr (url r) = true /\
  timeout r = timeout_of c.
Proof.
  destruct (plan c) as [p|] eqn:Hp.
  - rewrite (invoke_plan c w p Hp). unfold run_plan.
    destruct (Py.truthy_opt (api_key_of w)); [|intros []].
    destruct p as [error|[[u t] returns]]; simpl; [intros []|].
    intros [<-|[]]. destruct (planned_request c u t returns Hp) as [Hu Ht].
    simpl. auto.
  - apply plan_product_list in Hp. subst c. simpl invoke.
    rewrite product_list_spec. simpl. intros [<-|[]]. simpl. auto.
Qed.

Lemma requests_made_witness :
  let r := request "https://api.library.cdisc.org/api/mdr/ct/packages/sdtmct-2025-09-26"
             (Some "secret") 30 in
  snd (run (invoke (package_ct_info "sdtmct-2025-09-26"))
         (answering (ok (response_200 sample_package)))) = [r] /\
  headers r = hdr (Some "secret") /\
  Py.startswith mdr (url r) = true /\
  timeout r = 30%Z.
Proof.
  intros r.
  apply (requests_made (package_ct_info "sdtmct-2025-09-26")
           (answering (ok (response_200 sample_package))) r).
  simpl. left. reflexivity.
Defined.

(** [X3] For every tool but the product list, an unset credential and a
    credential that is the empty string are the same: the tool returns the
    fixed configuration string and makes no request, whatever its
    arguments. *)
Theorem empty_credential_counts_as_missing (c : Call) (w : World) :
  c <> CDISC_Library_api_product_list ->
  getenv w "CDISC_API_KEY" = None \/ getenv w "CDISC_API_KEY" = Some EmptyString ->
  run (invoke c) w = (ok no_api_key, []).
Proof.
  intros Hc Hkey. apply missing_api_key; [exact Hc|].
  unfold api_key_of. destruct Hkey as [-> | ->]; reflexivity.
Qed.

Lemma empty_credential_counts_as_missing_witness :
  run (invoke (qrs_info "HAMA1" "2-1"))
    {| getenv := fun _ => Some EmptyString;
       client_get := fun _ => ok (response_200 JNull) |}
  = (ok "Error: CDISC_API_KEY environment variable not found.", []).
Proof.
  apply empty_credential_counts_as_missing; [discriminate | right; reflexivity].
Defined.

(** [X4] An identifier that is the empty string is an omitted identifier:
    each tool with an optional class, dataset, domain or scenario behaves on
    the empty string exactly as without the argument (it asks for the
    listing), in every world. *)
Theorem empty_identifier_is_omitted (w : World) (version : string) :
  run (get_sdtmig_class_info version (Some EmptyString)) w
  = run (get_sdtmig_class_info version None) w /\
  run (get_sdtm_model_class_info version (Some EmptyString)) w
  = run (get_sdtm_model_class_info version None) w /\
  run (get_sdtm_model_dataset_info version (Some EmptyString)) w
  = run (get_sdtm_model_dataset_info version None) w /\
  run (get_sendig_class_info version (Some EmptyString)) w
  = run (get_sendig_class_info version None) w /\
  run (get_sendig_dataset_info version (Some EmptyString)) w
  = run (get_sendig_dataset_info version None) w /\
  run (get_cdashig_class_info version (Some EmptyString)) w
  = run (get_cdashig_class_info version None) w /\
  run (get_cdashig_domain_info version (Some EmptyString)) w
  = run (get_cdashig_domain_info version None) w /\
  run (get_cdashig_scenarios_info version (Some EmptyString)) w
  = run (get_cdashig_scenarios_info version None) w /\
  run (get_cdash_model_class_info version (Some EmptyString)) w
  = run (get_cdash_model_class_info version None) w /\
  run (get_cdash_model_domain_info version (Some EmptyString)) w
  = run (get_cdash_model_domain_info version None) w /\
  (configured w ->
   snd (run (get_sdtmig_dataset_info version EmptyString) w)
   = [request (mdr ++ "sdtmig/" ++ version ++ "/datasets") (api_key_of w) 15]).
Proof.
  repeat (split; [reflexivity|]).
  intros Hkey.
  change (get_sdtmig_dataset_info version EmptyString)
    with (invoke (sdtmig_dataset_info version EmptyString)).
  rewrite (invoke_plan (sdtmig_dataset_info version EmptyString) w _ eq_refl).
  unfold run_plan. rewrite Hkey. reflexivity.
Qed.

Lemma empty_identifier_is_omitted_witness :
  snd (run (get_sdtmig_dataset_info "3-4" EmptyString)
         (answering (ok (response_200 JNull))))
  = [request "https://api.library.cdisc.org/api/mdr/sdtmig/3-4/datasets" (Some "secret") 15].
Proof.
  apply (proj2 (proj2 (proj2 (proj2 (proj2 (proj2 (proj2 (proj2 (proj2 (proj2
           (empty_identifier_is_omitted (answering (ok (response_200 JNull))) "3-4")))))))))));
    reflexivity.
Defined.

Lemma run_plan_requests (p : string + string * Z * (json -> result string)) (w : World) :
  configured w ->
  (snd (run_plan p w) <> [] <-> exists x, p = inr x).
Proof.
  unfold configured, run_plan. intros ->.
  destruct p as [error|[[u t] returns]]; simpl; split.
  - intros H. now elim H.
  - intros [x H]. discriminate H.
  - eauto.
  - discriminate.
Qed.

Lemma choose_url_passes (name v : string) (allowed : list string)
    (detail : string -> string) (base_url : string) :
  (exists u, choose_url name (Some v) allowed detail base_url = inr u)
  <-> v = EmptyString \/ In v allowed.
Proof.
  unfold choose_url. destruct v as [|a v]; simpl.
  - split; eauto.
  - destruct (Py.str_in (String a v) allowed) eqn:E; split.
    + intros _. right. now apply str_in_In.
    + eauto.
    + intros [u H]. discriminate H.
    + intros [H|H]; [discriminate H|]. apply str_in_In in H. congruence.
Qed.

(** [X5] With the credential configured, a tool that looks its identifier
    up in a list makes a request exactly when the identifier is empty or in
    the list. *)
Theorem flat_request_iff (c : Call) (w : World) (name value : string)
    (allowed : list string) :
  checked_identifier c = Some (name, value, allowed) ->
  configured w ->
  (snd (run (invoke c) w) <> [] <-> value = EmptyString \/ In value allowed).
Proof.
  intros Hc Hkey.
  destruct c; simpl in Hc; try discriminate Hc;
    try match type of Hc with
      | match ?x with Some _ => _ | None => _ end = _ =>
          destruct x; [|discriminate Hc]
      end;
    apply some_inj in Hc; inversion Hc; subst;
    match goal with
    | |- snd (run (invoke ?c) w) <> _ <-> _ => rewrite (invoke_plan c w _ eq_refl)
    end;
    rewrite (run_plan_requests _ w Hkey);
    match goal with
    | |- _ <-> ?v = EmptyString \/ In ?v ?l =>
        match goal with
        | |- context [choose_url ?n (Some v) l ?f ?b] =>
            rewrite <- (choose_url_passes n v l f b);
            destruct (choose_url n (Some v) l f b)
        end
    end;
    (split; [intros [x Hx]; try discriminate Hx; eauto
            | intros [u Hu]; try discriminate Hu; eauto]).
Qed.

Lemma flat_request_iff_witness :
  snd (run (invoke (cdash_model_domain_info "1-3" (Some "AE")))
         (answering (ok (response_200 JNull)))) <> [] <->
  "AE" = EmptyString \/ In "AE" cdash_domains.
Proof.
  apply (flat_request_iff (cdash_model_domain_info "1-3" (Some "AE"))
           (answering (ok (response_200 JNull))) "domain" "AE" cdash_domains);
    reflexivity.
Defined.

(** [X6] With the credential configured, [get_adam_datastructure_info] and
    [get_qrs_info] make a request exactly when the parent is a key of their
    table and the child is in that parent's list, and the three package
    tools exactly when the package is in [ct_package]. *)
Theorem two_level_request_iff (w : World) :
  configured w ->
  (forall product datastructure,
     snd (run (get_adam_datastructure_info product datastructure) w) <> [] <->
     exists allowed,
       lookup product ALLOWED_adam_datastructure_combinations = Some allowed /\
       In datastructure allowed) /\
  (forall instrument version,
     snd (run (get_qrs_info instrument version) w) <> [] <->
     exists allowed,
       lookup instrument ALLOWED_qrs_combinations = Some allowed /\
       In version allowed) /\
  (forall c package,
     checked_package c = Some package ->
     (snd (run (invoke c) w) <> [] <-> In package ct_package)).
Proof.
  intros Hkey. split; [|split].
  - intros product datastructure.
    change (get_adam_datastructure_info product datastructure)
      with (invoke (adam_datastructure_info product datastructure)).
    rewrite (invoke_plan (adam_datastructure_info product datastructure) w _ eq_refl).
    rewrite (run_plan_requests _ w Hkey).
    destruct (lookup product ALLOWED_adam_datastructure_combinations) as [allowed|].
    + destruct (Py.str_in datastructure allowed) eqn:E; split.
      * intros _. exists allowed. split; [reflexivity | now apply str_in_In].
      * eauto.
      * intros [x Hx]. discriminate Hx.
      * intros (a & Ha & Hin). inversion Ha; subst a.
        apply str_in_In in Hin. congruence.
    + split; [intros [x Hx]; discriminate Hx | intros (a & Ha & _); discriminate Ha].
  - intros instrument version.
    change (get_qrs_info instrument version) with (invoke (qrs_info instrument version)).
    rewrite (invoke_plan (qrs_info instrument version) w _ eq_refl).
    rewrite (run_plan_requests _ w Hkey).
    destruct (lookup instrument ALLOWED_qrs_combinations) as [allowed|].
    + destruct (Py.str_in version allowed) eqn:E; split.
      * intros _. exists allowed. split; [reflexivity | now apply str_in_In].
      * eauto.
      * intros [x Hx]. discriminate Hx.
      * intros (a & Ha & Hin). inversion Ha; subst a.
        apply str_in_In in Hin. congruence.
    + split; [intros [x Hx]; discriminate Hx | intros (a & Ha & _); discriminate Ha].
  - intros c package Hc.
    destruct c; simpl in Hc; try discriminate Hc; apply some_inj in Hc; subst;
      match goal with
      | |- snd (run (invoke ?c) w) <> _ <-> _ => rewrite (invoke_plan c w _ eq_refl)
      end;
      rewrite (run_plan_requests _ w Hkey);
      rewrite <- str_in_In; destruct (Py.str_in package ct_package);
      (split; [intros [x Hx]; try discriminate Hx; reflexivity
              | intros H; try discriminate H; eauto]).
Qed.

Lemma two_level_request_iff_witness :
  let w := answering (ok (response_200 JNull)) in
  (snd (run (get_adam_datastructure_info "adam-occds-1-1" "AE") w) <> [] <->
   exists allowed,
     lookup "adam-occds-1-1" ALLOWED_adam_datastructure_combinations = Some allowed /\
     In "AE" allowed) /\
  (snd (run (invoke (package_ct_info "tmfct-2024-09-27")) w) <> [] <->
   In "tmfct-2024-09-27" ct_package).
Proof.
  intros w. destruct (two_level_request_iff w eq_refl) as (H1 & _ & H3). split.
  - apply H1.
  - apply (H3 (package_ct_info "tmfct-2024-09-27") _ eq_refl).
Defined.

(** * Further properties of the shapers *)

Lemma map_idem_pointwise {A} (f : A -> A) (l : list A) :
  map f (map f l) = map f l -> Forall (fun x => f (f x) = f x) l.
Proof.
  induction l as [|x t IH]; simpl; intros H; [constructor|].
  inversion H. constructor; auto.
Qed.

Lemma dict_get_In (k : string) (d : dict) (v : json) :
  dict_get k d = Some v -> In (k, v) d.
Proof.
  induction d as [|[k' v'] t IH]; simpl; [discriminate|].
  destruct (String.eqb k k') eqn:E.
  - apply String.eqb_eq in E. intros H. inversion H. subst. auto.
  - auto.
Qed.

Lemma kept_self_idem (links : dict) :
  (forall a, dict_get "self" links = Some a ->
     remove_links_parent_refs (remove_links_parent_refs a (Some "self")) (Some "self")
     = remove_links_parent_refs a (Some "self")) ->
  kept_self (kept_self links) = kept_self links.
Proof.
  intros H. rewrite (keep_self_spec _ links).
  destruct (dict_get "self" links) as [a|]; [|reflexivity].
  simpl. now rewrite (H a eq_refl).
Qed.

(** [X7] Link-prune is idempotent: with the same parent key, pruning a
    pruned tree changes nothing. *)
Theorem remove_links_parent_refs_idempotent (v : json) (pk : option string) :
  remove_links_parent_refs (remove_links_parent_refs v pk) pk
  = remove_links_parent_refs v pk.
Proof.
  revert pk.
  induction v as [| | | | |l IH|d IH] using json_nested_ind; intros pk;
    try reflexivity.
  - simpl. f_equal. rewrite map_map. apply map_ext_in. intros x Hin.
    rewrite Forall_forall in IH. exact (IH x Hin pk).
  - rewrite !remove_links_parent_refs_object. f_equal. rewrite map_map.
    apply map_ext_in. intros [k x] Hin. simpl. f_equal.
    rewrite Forall_forall in IH. specialize (IH (k, x) Hin). simpl in IH.
    destruct x as [| | | | |items|links]; try reflexivity.
    + exact (IH (Some k)).
    + destruct (is_av pk && String.eqb k "_links") eqn:E.
      * unfold pruned_entry. rewrite !E. f_equal. apply kept_self_idem.
        intros a Ha.
        pose proof (IH (Some "_links")) as Hl.
        rewrite !remove_links_parent_refs_object in Hl.
        apply (f_equal (fun j => match j with JObject d => d | _ => [] end)) in Hl.
        change (is_av (Some "_links")) with false in Hl.
        apply (map_idem_pointwise
                 (fun kv => (fst kv, pruned_entry false (fst kv) (snd kv)))) in Hl.
        rewrite Forall_forall in Hl.
        specialize (Hl _ (dict_get_In _ _ _ Ha)). simpl in Hl.
        apply (f_equal snd) in Hl. simpl in Hl.
        rewrite !pruned_entry_plain in Hl by reflexivity. exact Hl.
      * rewrite (pruned_entry_plain _ _ (JObject links) E).
        rewrite remove_links_parent_refs_object at 1.
        unfold pruned_entry at 1. rewrite E.
        rewrite <- remove_links_parent_refs_object. exact (IH (Some k)).
Qed.

(** [X8] After Subtree-clear, every object of the tree, at any depth, that
    has an ['analysisVariables'] field holds the empty list there. *)
Theorem analysis_variables_cleared_everywhere (v : json) (path : list step)
    (d : dict) (x : json) :
  node_at path (remove_all_analysis_variables v) = Some (JObject d) ->
  dict_get AV d = Some x ->
  x = JList [].
Proof.
  intros Hnode Hget.
  destruct (node_at_remove_all_analysis_variables _ _ _ Hnode) as (n & _ & [Hn|Hn]);
    [|discriminate Hn].
  destruct n; try discriminate Hn.
  exact (remove_all_analysis_variables_cleared fields d x (eq_sym Hn) Hget).
Qed.

Lemma analysis_variables_cleared_everywhere_witness :
  node_at [Key "analysisVariableSets"; Index 0]
    (remove_all_analysis_variables sample_datastructure)
  = Some (JObject [("name", JStr "Identifier"); ("analysisVariables", JList [])]) /\
  JList [] = JList [].
Proof.
  split; [reflexivity|].
  apply (analysis_variables_cleared_everywhere sample_datastructure
           [Key "analysisVariableSets"; Index 0]
           [("name", JStr "Identifier"); ("analysisVariables", JList [])]
           (JList []));
    reflexivity.
Defined.

Lemma keep_self_key (walk : json -> json) (links : dict) (k : string) (y : json) :
  dict_get k (keep_self walk links) = Some y -> k = "self".
Proof.
  rewrite keep_self_spec. destruct (dict_get "self" links); simpl; [|discriminate].
  destruct (String.eqb k "self") eqn:E; [|discriminate].
  intros _. now apply String.eqb_eq.
Qed.

Lemma node_at_under_parent_key (path : list step) :
  (forall v pk n',
     node_at path (remove_links_parent_refs v pk) = Some n' ->
     last_key pk path = Some AV ->
     exists n, node_at path v = Some n /\ n' = remove_links_parent_refs n (Some AV)) /\
  (forall links n',
     node_at path (JObject (kept_self links)) = Some n' ->
     last_key (Some "_links") path = Some AV ->
     exists n, node_at path (JObject links) = Some n /\
               n' = remove_links_parent_refs n (Some AV)).
Proof.
  induction path as [|[k|i] rest [IHv IHl]]; split.
  - intros v pk n' H Hk. simpl in *. inversion H; subst. eauto.
  - intros links n' _ Hk. discriminate Hk.
  - intros v pk n' H Hk. destruct v; try discriminate H.
    rewrite remove_links_parent_refs_object in H. simpl in H.
    rewrite (dict_get_map_values (pruned_entry (is_av pk))) in H.
    simpl in *. destruct (dict_get k fields) as [x|]; simpl in H; [|discriminate].
    unfold pruned_entry in H.
    destruct x; try exact (IHv _ _ _ H Hk).
    destruct (is_av pk && String.eqb k "_links") eqn:E; [|exact (IHv _ _ _ H Hk)].
    apply andb_true_iff in E. destruct E as [_ E]. apply String.eqb_eq in E. subst k.
    exact (IHl _ _ H Hk).
  - intros links n' H Hk. simpl in H.
    destruct (dict_get k (kept_self links)) as [y|] eqn:E; [|discriminate].
    pose proof (keep_self_key _ _ _ _ E). subst k.
    destruct (keep_self_get _ _ _ _ E) as (a & Hget & ->).
    simpl. rewrite Hget. exact (IHv _ _ _ H Hk).
  - intros v pk n' H Hk. destruct v; try discriminate H. simpl in H.
    rewrite nth_error_map in H.
    simpl in *. destruct (nth_error items i) as [x|]; simpl in H; [|discriminate].
    exact (IHv _ _ _ H Hk).
  - intros links n' H. discriminate H.
Qed.

(** [X9] After Link-prune, every object of the tree that is reached under
    the key ['analysisVariables'] (directly, or as an item of a list stored
    under that key) and whose ['_links'] is an object has no link but
    "self" there: the fields of its ['_links'] are none, or "self" alone. *)
Theorem links_pruned_everywhere (v : json) (pk : option string) (path : list step)
    (d links : dict) :
  node_at path (remove_links_parent_refs v pk) = Some (JObject d) ->
  last_key pk path = Some AV ->
  dict_get "_links" d = Some (JObject links) ->
  keys links = [] \/ keys links = ["self"].
Proof.
  intros Hnode Hk Hget.
  destruct (proj1 (node_at_under_parent_key path) _ _ _ Hnode Hk) as (n & _ & Hn).
  destruct n; try discriminate Hn.
  rewrite remove_links_parent_refs_object in Hn. inversion Hn; subst d; clear Hn.
  rewrite (dict_get_map_values (pruned_entry (is_av (Some AV)))) in Hget.
  destruct (dict_get "_links" fields) as [x|]; simpl in Hget; [|discriminate].
  destruct x; try discriminate Hget.
  change (pruned_entry (is_av (Some AV)) "_links" (JObject fields0))
    with (JObject (kept_self fields0)) in Hget.
  inversion Hget. rewrite keep_self_spec.
  destruct (dict_get "self" fields0); auto.
Qed.

Lemma links_pruned_everywhere_witness :
  last_key None [Key "analysisVariableSets"; Index 0; Key "analysisVariables"; Index 0]
  = Some AV /\
  (keys [("self", JObject [("href", JStr "/mdr/adam/adamig-1-3/variables/STUDYID")])] = []
   \/ keys [("self", JObject [("href", JStr "/mdr/adam/adamig-1-3/variables/STUDYID")])]
      = ["self"]).
Proof.
  split; [reflexivity|].
  apply (links_pruned_everywhere sample_datastructure None
           [Key "analysisVariableSets"; Index 0; Key "analysisVariables"; Index 0]
           [("name", JStr "STUDYID");
            ("_links",
             JObject [("self", JObject [("href", JStr "/mdr/adam/adamig-1-3/variables/STUDYID")])])]);
    reflexivity.
Defined.

Lemma for_each_map {A B} (f : A -> result B) (g : A -> B) (l : list A) :
  Forall (fun x => f x = ok (g x)) l -> for_each f l = ok (map g l).
Proof.
  induction 1 as [|x t Hx _ IH]; simpl; [reflexivity|].
  now rewrite Hx, IH.
Qed.

Lemma dict_mem_false_get (k : string) (d : dict) :
  dict_mem k d = false -> dict_get k d = None.
Proof.
  intros H. destruct (dict_get k d) as [v|] eqn:E; [|reflexivity].
  assert (dict_mem k d = true) by (apply dict_mem_get; eauto). congruence.
Qed.

Lemma clean_term_object (t : json) :
  is_object t -> clean_term t = ok (JObject (identifying t)).
Proof. intros [d ->]. reflexivity. Qed.

Lemma clean_cl_codelist (cl : json) :
  is_codelist cl -> clean_cl cl = ok (minimal_codelist cl).
Proof.
  intros (d & -> & [Hno | (ts & Hts & Hall)]); unfold clean_cl, minimal_codelist; simpl.
  - rewrite Hno, (dict_mem_false_get _ _ Hno). reflexivity.
  - assert (dict_mem "terms" d = true) as -> by (apply dict_mem_get; eauto).
    rewrite Hts. simpl.
    rewrite (for_each_map clean_term (fun t => JObject (identifying t)) ts).
    + reflexivity.
    + apply Forall_impl with (2 := Hall). exact clean_term_object.
Qed.

Lemma final_data_well_formed (d : dict) (cls : list json) :
  dict_get "codelists" d = Some (JList cls) ->
  Forall is_codelist cls ->
  final_data (JObject d) = ok (JObject [("codelists", JList (map minimal_codelist cls))]).
Proof.
  intros Hd Hall. unfold final_data, minimized_codelists, get_codelists.
  rewrite Hd. simpl.
  rewrite (for_each_map clean_cl minimal_codelist cls); [reflexivity|].
  apply Forall_impl with (2 := Hall). exact clean_cl_codelist.
Qed.

(** [X10] On a package whose ['codelists'] is a list of objects, each with
    no ['terms'] or with a list of objects as ['terms'], the minimisation
    of [get_package_ct_info] succeeds and keeps the codelists and their
    terms one for one and in order, each reduced to its conceptId and
    submissionValue ([null] for an absent one), plus the terms of a
    codelist. *)
Theorem minimisation_of_a_package (d : dict) (cls : list json) :
  dict_get "codelists" d = Some (JList cls) ->
  Forall is_codelist cls ->
  final_data (JObject d) = ok (JObject [("codelists", JList (map minimal_codelist cls))]).
Proof. exact (final_data_well_formed d cls). Qed.

Lemma minimisation_of_a_package_witness :
  final_data sample_package
  = ok (JObject
          [("codelists",
            JList [JObject [("conceptId", JStr "C66742");
                            ("submissionValue", JStr "NY");
                            ("terms", JList [JObject [("conceptId", JStr "C49487");
                                                      ("submissionValue", JStr "N")];
                                             JObject [("conceptId", JStr "C49488");
                                                      ("submissionValue", JStr "Y")]])];
                   JObject [("conceptId", JStr "C66781");
                            ("submissionValue", JNull);
                            ("terms", JList [])]])]).
Proof.
  apply (minimisation_of_a_package sample_package_fields sample_codelists eq_refl).
  repeat constructor.
  - eexists. split; [reflexivity|]. right. eexists. split; [reflexivity|].
    repeat constructor; eexists; reflexivity.
  - eexists. split; [reflexivity|]. left. reflexivity.
Defined.

Lemma clean_cl_is_codelist (c : json) :
  is_clean_cl c -> is_codelist c /\ minimal_codelist c = c.
Proof.
  intros (a & b & ts & -> & Hts). split.
  - eexists. split; [reflexivity|]. right. exists ts. split; [reflexivity|].
    apply Forall_impl with (2 := Hts). intros t (x & y & ->). eexists. reflexivity.
  - unfold minimal_codelist. simpl.
    rewrite (map_id_on (fun t => JObject (identifying t)) ts); [reflexivity|].
    apply Forall_impl with (2 := Hts). intros t (x & y & ->). reflexivity.
Qed.

(** [X11] The minimisation is stable on what it produces: minimising a
    minimised package succeeds and returns it unchanged. *)
Theorem minimisation_is_stable (raw_data out : json) :
  final_data raw_data = ok out -> final_data out = ok out.
Proof.
  intros H. destruct (final_data_shape _ _ H) as (cls & -> & Hall).
  rewrite (final_data_well_formed [("codelists", JList cls)] cls eq_refl).
  - rewrite (map_id_on minimal_codelist cls); [reflexivity|].
    apply Forall_impl with (2 := Hall). intros c Hc. apply clean_cl_is_codelist, Hc.
  - apply Forall_impl with (2 := Hall). intros c Hc. apply clean_cl_is_codelist, Hc.
Qed.

Lemma minimisation_is_stable_witness :
  exists out, final_data sample_package = ok out /\ final_data out = ok out.
Proof.
  eexists. split; [reflexivity|].
  apply (minimisation_is_stable sample_package). reflexivity.
Defined.

(** [X12] When the package endpoint answers with a JSON value that is not
    an object, [get_package_ct_info] returns the text of the
    [AttributeError] behind "Execution Error: ", after its one request. *)
Theorem package_answer_not_an_object (package : string) (w : World) (r : Request)
    (data : json) :
  snd (run (get_package_ct_info package) w) = [r] ->
  outcome w r = ok data ->
  (forall d, data <> JObject d) ->
  fst (run (get_package_ct_info package) w)
  = ok ("Execution Error: '" ++ type_name data ++ "' object has no attribute 'get'").
Proof.
  change (get_package_ct_info package) with (invoke (package_ct_info package)).
  intros Hlog Hout Hno.
  destruct (requested_plan (package_ct_info package) w r _ eq_refl Hlog)
    as (u & t & returns & Hp & _ & ->).
  unfold answered. rewrite Hout. plan_cases Hp.
  cbv beta iota delta [ok].
  destruct data; try reflexivity. elim (Hno fields). reflexivity.
Qed.

Lemma package_answer_not_an_object_witness :
  fst (run (get_package_ct_info "sdtmct-2025-09-26")
         (answering (ok (response_200 (JList [])))))
  = ok "Execution Error: 'list' object has no attribute 'get'".
Proof.
  apply (package_answer_not_an_object "sdtmct-2025-09-26"
           (answering (ok (response_200 (JList [])))) _ (JList []) eq_refl eq_refl).
  discriminate.
Defined.

(** * Further properties of the truncation and of the prompt *)

Lemma cut_visible (marker s : string) :
  marker <> EmptyString ->
  ((limit < Py.len (cut marker s))%nat <-> (limit < Py.len s)%nat) /\
  ((limit < Py.len s)%nat -> Py.len (cut marker s) = (limit + Py.len marker)%nat).
Proof.
  intros Hm.
  assert (0 < Py.len marker)%nat as Hpos
    by (destruct marker; [contradiction | unfold Py.len; simpl; lia]).
  unfold cut. destruct (limit <? Py.len s)%nat eqn:E.
  - apply Nat.ltb_lt in E. rewrite len_app, len_take. split; [split|]; lia.
  - apply Nat.ltb_ge in E. split; [split|]; lia.
Qed.

(** [X13] A string comes back from [return_result] or [return_json_str]
    longer than 130000 characters exactly when it went in longer than
    that, and then it has exactly 130000 characters plus the marker: 130052
    with the long marker, 130016 with "... [Truncated]". *)
Theorem truncation_shows_in_the_length (s : string) :
  ((limit < Py.len (return_result s))%nat <-> (limit < Py.len s)%nat) /\
  ((limit < Py.len s)%nat -> Py.len (return_result s) = (limit + 52)%nat) /\
  ((limit < Py.len (return_json_str s))%nat <-> (limit < Py.len s)%nat) /\
  ((limit < Py.len s)%nat -> Py.len (return_json_str s) = (limit + 16)%nat).
Proof.
  change (return_result s)
    with (cut "...The data is too long, please shorten the request." s).
  change (return_json_str s) with (cut truncated s).
  destruct (cut_visible "...The data is too long, please shorten the request." s)
    as [H1 H2]; [discriminate|].
  destruct (cut_visible truncated s) as [H3 H4]; [discriminate|].
  split; [exact H1 | split; [|split; [exact H3|]]].
  - intros L. rewrite (H2 L). reflexivity.
  - intros L. rewrite (H4 L). reflexivity.
Qed.

Lemma truncation_shows_in_the_length_witness :
  Py.len (return_result (json_dumps oversized_object)) = (limit + 52)%nat /\
  Py.len (return_json_str (Dumps.dumps Dumps.compact oversized_object))
  = (limit + 16)%nat.
Proof.
  destruct oversized_object_long as [L1 L2]. apply Nat.ltb_lt in L1, L2. split.
  - apply (proj1 (proj2 (truncation_shows_in_the_length _))). exact L1.
  - apply (proj2 (proj2 (proj2 (truncation_shows_in_the_length _)))). exact L2.
Defined.

(** [X14] On a list answer whose serialization is longer than 130000
    characters but which has at most 130000 items, the tools that return
    the decoded data as it is return the whole serialization followed by
    the marker: the slice [data[:130000]] keeps every item, nothing is cut. *)
Theorem return_data_on_long_list (l : list json) :
  (limit < Py.len (json_dumps (JList l)))%nat ->
  (List.length l <= limit)%nat ->
  return_data (JList l)
  = ok (json_dumps (JList l) ++ "...The data is too long, please shorten the request.").
Proof.
  intros Hlong Hitems. unfold return_data.
  rewrite (proj2 (Nat.ltb_lt _ _) Hlong).
  change (py_slice (JList l) limit) with (@inr exn json (JList (firstn limit l))).
  unfold rbind. rewrite (firstn_all2 l Hitems). reflexivity.
Qed.

Lemma return_data_on_long_list_witness :
  return_data oversized_list
  = ok (json_dumps oversized_list ++ "...The data is too long, please shorten the request.").
Proof.
  apply return_data_on_long_list.
  - apply Nat.ltb_lt. vm_compute. reflexivity.
  - apply Nat.leb_le. vm_compute. reflexivity.
Defined.

Lemma styles_get_absent (style default : string) (table : list (string * string)) :
  ~ In style (map fst table) -> styles_get style table default = default.
Proof.
  induction table as [|[k v] t IH]; simpl; intros H; [reflexivity|].
  destruct (String.eqb style k) eqn:E.
  - apply String.eqb_eq in E. elim H. auto.
  - apply IH. intros Hin. apply H. auto.
Qed.

(** [X15] [greet_user] falls back to the friendly style: a style that is
    none of "friendly", "formal" and "casual" gives the same prompt as
    leaving the style out, which is the friendly one. *)
Theorem greet_user_falls_back (name style : string) :
  ~ In style ["friendly"; "formal"; "casual"] ->
  greet_user name (Some style) = greet_user name None /\
  greet_user name None
  = "Please write a warm, friendly greeting for someone named " ++ name ++ ".".
Proof.
  intros H. split; [|reflexivity].
  unfold greet_user. now rewrite (styles_get_absent style _ styles H).
Qed.

Lemma greet_user_falls_back_witness :
  greet_user "Ada" (Some "pirate") = greet_user "Ada" None /\
  greet_user "Ada" None = "Please write a warm, friendly greeting for someone named Ada.".
Proof.
  apply greet_user_falls_back. apply not_In_by_str_in. reflexivity.
Defined.

(** * Further properties of the request path *)


(** [X16] With the credential configured, the request for a listed
    identifier goes to the path of the tool's listing request (the call
    without the identifier) extended by "/", the identifier and the tail of
    the tool, [detail_tail], which is taken at the call without the
    identifier and so is the same for every identifier; both requests use
    the same headers and timeout. *)
Theorem detail_path_extends_listing_path (c : Call) (w : World) (name value : string)
    (allowed : list string) :
  checked_identifier c = Some (name, value, allowed) ->
  value <> EmptyString ->
  In value allowed ->
  configured w ->
  exists base,
    snd (run (invoke (without_identifier c)) w) = [request base (api_key_of w) 15] /\
    snd (run (invoke c) w)
    = [request (base ++ "/" ++ value ++ detail_tail (without_identifier c))
         (api_key_of w) 15].
Proof.
  intros Hc Hne Hin Hkey.
  assert (Py.truthy value = true) as Ht by (destruct value; [contradiction|reflexivity]).
  apply str_in_In in Hin. unfold configured in Hkey.
  destruct c; simpl in Hc; try discriminate Hc;
    try match type of Hc with
      | match ?x with Some _ => _ | None => _ end = _ =>
          destruct x; [|discriminate Hc]
      end;
    apply some_inj in Hc; inversion Hc; subst;
    simpl without_identifier;
    match goal with
    | |- exists base, snd (run (invoke ?c0) w) = _ /\ snd (run (invoke ?c1) w) = _ =>
        rewrite (invoke_plan c0 w _ eq_refl), (invoke_plan c1 w _ eq_refl)
    end;
    unfold run_plan, choose_url; rewrite Hkey, Ht, Hin; simpl Py.truthy; cbv iota;
    unfold detail_tail; rewrite ?append_empty_r;
    eexists; split; reflexivity.
Qed.

Lemma detail_path_extends_listing_path_witness :
  exists base,
    snd (run (invoke (sdtmig_class_info "3-4" None))
           (answering (ok (response_200 JNull))))
    = [request base (Some "secret") 15] /\
    snd (run (invoke (sdtmig_class_info "3-4" (Some "Events")))
           (answering (ok (response_200 JNull))))
    = [request (base ++ "/" ++ "Events" ++ "/datasets?expand=false") (Some "secret") 15].
Proof.
  apply (detail_path_extends_listing_path (sdtmig_class_info "3-4" (Some "Events"))
           (answering (ok (response_200 JNull))) "className" "Events" sdtmig_classes).
  - reflexivity.
  - discriminate.
  - apply str_in_In. reflexivity.
  - reflexivity.
Defined.
(** [X17] With the credential configured, [get_adam_product_info] and
    [get_cdashig_scenarios_info] reject nothing: whatever product, version
    and scenario they are given, they make their one request, and the
    product goes into its path as it is. *)
Theorem unchecked_arguments_are_requested (w : World) :
  configured w ->
  (forall product,
     snd (run (get_adam_product_info product) w)
     = [request (mdr ++ "adam/" ++ product) (api_key_of w) 15]) /\
  (forall version scenario,
     List.length (snd (run (get_cdashig_scenarios_info version scenario) w)) = 1%nat).
Proof.
  intros Hkey. unfold configured in Hkey. split.
  - intros product.
    change (get_adam_product_info product) with (invoke (adam_product_info product)).
    rewrite (invoke_plan (adam_product_info product) w _ eq_refl).
    unfold run_plan. rewrite Hkey. reflexivity.
  - intros version scenario.
    change (get_cdashig_scenarios_info version scenario)
      with (invoke (cdashig_scenarios_info version scenario)).
    rewrite (invoke_plan (cdashig_scenarios_info version scenario) w _ eq_refl).
    unfold run_plan. rewrite Hkey. reflexivity.
Qed.

Lemma unchecked_arguments_are_requested_witness :
  snd (run (get_adam_product_info "no-such-product") (answering (ok (response_200 JNull))))
  = [request "https://api.library.cdisc.org/api/mdr/adam/no-such-product"
       (Some "secret") 15].
Proof.
  apply (proj1 (unchecked_arguments_are_requested
                  (answering (ok (response_200 JNull))) eq_refl)).
Defined.
